(** * Vehicle-catalog pipeline: aggregation, normalization, integration

    A shallow embedding of the two scripts [onedot_solution.py] and
    [onedot_data_analyst_solution.py].  Both read a supplier catalog with
    one attribute per row, group the rows into one record per vehicle,
    rewrite five fields into a target vocabulary and project the result
    onto a fixed 18-field schema.

    Modelling conventions.
    - A cell of a pandas frame is a [pyval]: a string, an integer, the
      Python [None] (a JSON null) or the float [NaN] that pandas puts in a
      cell whose column exists in the frame but whose attribute this record
      does not have.
    - A text is a Rocq [string] holding the UTF-8 bytes of the Python [str].
      Equality, ordering by code point and substring containment of valid
      UTF-8 texts coincide with the same operations on their bytes;
      [len] and slicing count characters, so they go through [chars].
    - A row (a pandas [Series]) is a finite map from column label to cell.
      The order of the labels is not represented.
    - Python exceptions are explicit: every function that can raise returns
      a [result]. *)

From Stdlib Require Import ZArith.
From stdpp Require Import gmap strings list fin_maps sorting.

Local Open Scope string_scope.
Local Open Scope Z_scope.

(** ** Python values and exceptions *)

Inductive pyval : Type :=
  | NaN
  | PyNone
  | Str (s : string)
  | Int (n : Z).

Inductive exn : Type := KeyError | TypeError | AttributeError.

Inductive result (A : Type) : Type :=
  | Ok (a : A)
  | Raise (e : exn).
Arguments Ok {A} a.
Arguments Raise {A} e.

#[global] Instance pyval_eq_dec : EqDecision pyval.
Proof. solve_decision. Defined.

#[global] Instance exn_eq_dec : EqDecision exn.
Proof. solve_decision. Defined.

#[global] Instance result_ret : MRet result := fun A a => Ok a.

#[global] Instance result_bind : MBind result := fun A B f m =>
  match m with
  | Ok a => f a
  | Raise e => Raise e
  end.

(** What is left of a computation once the kind of exception is forgotten. *)
Definition outcome {A} (r : result A) : option A :=
  match r with
  | Ok a => Some a
  | Raise _ => None
  end.

(** [try: body except KeyError: handler] *)
Definition except_KeyError {A} (body handler : result A) : result A :=
  match body with
  | Raise KeyError => handler
  | r => r
  end.

(** [x == y] on cells.  NaN is unequal to everything, itself included. *)
Definition py_eq (x y : pyval) : bool :=
  match x, y with
  | PyNone, PyNone => true
  | Str a, Str b => String.eqb a b
  | Int a, Int b => Z.eqb a b
  | _, _ => false
  end.

(** [x != y] *)
Definition py_ne (x y : pyval) : bool := negb (py_eq x y).

(** Truth value of a cell, as [bool(x)] gives it: [None], the empty string
    and zero are false; NaN is a non-zero float, hence true. *)
Definition truthy (x : pyval) : bool :=
  match x with
  | NaN => true
  | PyNone => false
  | Str s => negb (String.eqb s EmptyString)
  | Int n => negb (Z.eqb n 0)
  end.

(** ** Texts *)

Module PyStr.

(** [needle in hay] for two texts. *)
Fixpoint contains (needle hay : string) : bool :=
  String.prefix needle hay ||
  match hay with
  | EmptyString => false
  | String _ hay' => contains needle hay'
  end.

(** The needle occurs somewhere in the text. *)
Definition occurs (needle hay : string) : Prop :=
  ∃ before after, hay = before +:+ needle +:+ after.

(** A UTF-8 continuation byte, [10xxxxxx]. *)
Definition is_cont (a : Ascii.ascii) : bool :=
  let n := Ascii.N_of_ascii a in ((128 <=? n) && (n <? 192))%N.

Definition starts_with_cont (s : string) : bool :=
  match s with
  | EmptyString => false
  | String a _ => is_cont a
  end.

(** The characters of a text: every byte together with the continuation
    bytes that follow it. *)
Fixpoint chars (s : string) : list string :=
  match s with
  | EmptyString => []
  | String a s' =>
      match chars s' with
      | c :: cs =>
          if starts_with_cont c then String a c :: cs
          else String a EmptyString :: c :: cs
      | [] => [String a EmptyString]
      end
  end.

Definition join (cs : list string) : string :=
  foldr String.append EmptyString cs.




(** [len(s)] *)
Definition len (s : string) : nat := length (chars s).

(** [s[:n]] and [s[n:]] for [n >= 0] *)
Definition slice_to (n : nat) (s : string) : string := join (take n (chars s)).
Definition slice_from (n : nat) (s : string) : string := join (drop n (chars s)).

Definition chr (n : nat) : Ascii.ascii := Ascii.ascii_of_nat n.

Definition utf8_2 (a b : nat) : string :=
  String (chr a) (String (chr b) EmptyString).
Definition utf8_3 (a b c : nat) : string :=
  String (chr a) (String (chr b) (String (chr c) EmptyString)).

(** The characters for which [str.isspace] holds: U+0009..U+000D,
    U+001C..U+0020, U+0085, U+00A0, U+1680, U+2000..U+200A, U+2028, U+2029,
    U+202F, U+205F and U+3000. *)
Definition whitespace : list string :=
  ((fun n => String (chr n) EmptyString) <$> [9; 10; 11; 12; 13; 28; 29; 30; 31; 32]%nat)
  ++ [utf8_2 194 133; utf8_2 194 160; utf8_3 225 154 128]
  ++ ((fun n => utf8_3 226 128 n) <$> [128; 129; 130; 131; 132; 133; 134; 135; 136; 137; 138]%nat)
  ++ [utf8_3 226 128 168; utf8_3 226 128 169; utf8_3 226 128 175;
      utf8_3 226 129 159; utf8_3 227 128 128].

Definition isspace (c : string) : bool := bool_decide (c ∈ whitespace).

Fixpoint lstrip_chars (cs : list string) : list string :=
  match cs with
  | c :: cs' => if isspace c then lstrip_chars cs' else cs
  | [] => []
  end.

Definition strip_chars (cs : list string) : list string :=
  reverse (lstrip_chars (reverse (lstrip_chars cs))).

(** [s.strip()] *)
Definition strip (s : string) : string := join (strip_chars (chars s)).

(** [str.lower] restricted to the letters A..Z; the pipeline itself takes
    the case mapping as a parameter, this one serves on ASCII texts. *)
Definition ascii_lower_char (a : Ascii.ascii) : Ascii.ascii :=
  let n := Ascii.nat_of_ascii a in
  if ((65 <=? n) && (n <=? 90))%nat then chr (n + 32) else a.

Fixpoint ascii_lower (s : string) : string :=
  match s with
  | EmptyString => EmptyString
  | String a s' => String (ascii_lower_char a) (ascii_lower s')
  end.

End PyStr.

(** ** Rows and frames *)

(** A pandas Series with string labels. *)
Abbreviation Series := (gmap string pyval).

(** [row[label]] *)
Definition getitem (row : Series) (label : string) : result pyval :=
  match row !! label with
  | Some v => Ok v
  | None => Raise KeyError
  end.

(** [{k1: v1, ...}[x]] for a dict literal with string keys and values: a
    cell that is no string is hashable and equal to no key. *)
Definition dict_getitem (d : list (string * string)) (x : pyval) : result pyval :=
  match x with
  | Str s =>
      match list_find (fun kv => kv.1 = s) d with
      | Some (_, kv) => Ok (Str kv.2)
      | None => Raise KeyError
      end
  | _ => Raise KeyError
  end.

(** [needle in x]: only a string cell supports the containment test. *)
Definition py_in (needle : string) (x : pyval) : result bool :=
  match x with
  | Str s => Ok (PyStr.contains needle s)
  | _ => Raise TypeError
  end.

(** [x.strip()]: only a string cell has the method. *)
Definition py_strip (x : pyval) : result string :=
  match x with
  | Str s => Ok (PyStr.strip s)
  | _ => Raise AttributeError
  end.

(** [for column, funct in items: row[column] = funct(row)], then [row]. *)
Fixpoint assign_each (items : list (string * (Series → result pyval)))
    (row : Series) : result Series :=
  match items with
  | [] => Ok row
  | (column, funct) :: rest =>
      v ← funct row; assign_each rest (<[column := v]> row)
  end.

(** Rules are independent when they assign different columns and none reads
    the column that another one assigns. *)
Definition independent (items : list (string * (Series → result pyval))) : Prop :=
  NoDup items.*1 ∧
  ∀ x y, x ∈ items → y ∈ items → x.1 ≠ y.1 →
    ∀ (row : Series) v, x.2 (<[y.1 := v]> row) = x.2 row.

(** [frame.apply(f, axis=1)] for an [f] that may raise: the first exception
    aborts the whole call. *)
Fixpoint apply_rows {A B} (f : A → result B) (frame : list A) : result (list B) :=
  match frame with
  | [] => Ok []
  | row :: rest => y ← f row; ys ← apply_rows f rest; Ok (y :: ys)
  end.

(** [frame.iloc[i][label]], when the frame has such a cell. *)
Definition iloc (frame : list Series) (i : nat) (label : string) : option pyval :=
  frame !! i ≫= fun row => row !! label.

(** The same for a frame whose computation may have raised. *)
Definition cell (frame : result (list Series)) (i : nat) (label : string)
    : option pyval :=
  match frame with
  | Ok rows => iloc rows i label
  | Raise _ => None
  end.

Module pandas.

(** One line of the catalog after [ID] went through the numeric conversion
    of the script at hand.  The identifier is the number that the cell
    denotes; whether the script holds it as an integer or as a float is not
    recorded, so a frame stands for what one script sees, and the frames of
    the two scripts for one catalog need not be the same.  [None] in a
    descriptive field stands for a JSON null or an absent key, which pandas
    treats alike as a missing value. *)
Record raw_row : Type := {
  ID : option Z;
  MakeText : option string;
  TypeName : option string;
  TypeNameFull : option string;
  ModelText : option string;
  ModelTypeText : option string;
  Attribute_Names : string;
  Attribute_Values : pyval
}.

(** The grouping key: the cells of the six constant columns. *)
Definition key : Type :=
  option Z * option string * option string * option string
  * option string * option string.

Definition key_of (r : raw_row) : key :=
  (ID r, MakeText r, TypeName r, TypeNameFull r, ModelText r, ModelTypeText r).

Definition has_na (k : key) : bool :=
  let '(i, mk, tn, tf, mo, mt) := k in
  negb (bool_decide (is_Some i) && bool_decide (is_Some mk)
        && bool_decide (is_Some tn) && bool_decide (is_Some tf)
        && bool_decide (is_Some mo) && bool_decide (is_Some mt)).

(** Missing values sort after every value. *)
Definition compare_na {A} (cmp : A → A → comparison) (x y : option A) : comparison :=
  match x, y with
  | Some a, Some b => cmp a b
  | Some _, None => Lt
  | None, Some _ => Gt
  | None, None => Eq
  end.

Definition lex (c1 c2 : comparison) : comparison :=
  match c1 with
  | Eq => c2
  | _ => c1
  end.

Definition key_compare (k1 k2 : key) : comparison :=
  let '(i1, mk1, tn1, tf1, mo1, mt1) := k1 in
  let '(i2, mk2, tn2, tf2, mo2, mt2) := k2 in
  lex (compare_na Z.compare i1 i2)
  (lex (compare_na String.compare mk1 mk2)
  (lex (compare_na String.compare tn1 tn2)
  (lex (compare_na String.compare tf1 tf2)
  (lex (compare_na String.compare mo1 mo2)
       (compare_na String.compare mt1 mt2))))).

Definition key_le (k1 k2 : key) : Prop := key_compare k1 k2 ≠ Gt.

Definition ID_le (r1 r2 : raw_row) : Prop :=
  compare_na Z.compare (ID r1) (ID r2) ≠ Gt.

#[global] Instance key_le_dec k1 k2 : Decision (key_le k1 k2).
Proof. unfold key_le. apply _. Defined.

#[global] Instance ID_le_dec r1 r2 : Decision (ID_le r1 r2).
Proof. unfold ID_le. apply _. Defined.

(** [df.sort_values("ID")].  Rows with equal identifiers keep their
    relative order here; pandas leaves that order to its sorting routine. *)
Definition sort_values (df : list raw_row) : list raw_row :=
  merge_sort ID_le df.

(** A row of [df.groupby(cols, dropna=...).agg({"Attribute Names": list,
    "Attribute Values": list}).reset_index()]: the key of the group and the
    attribute names and values of its rows, in frame order. *)
Record agg_row : Type := {
  agg_key : key;
  agg_names : list string;
  agg_values : list pyval
}.

(** Groups come out sorted by key.  With [dropna=True], which is the
    default, a row with a missing value in a key column belongs to no
    group. *)
Definition groupby_agg_list (dropna : bool) (df : list raw_row) : list agg_row :=
  let kept := if dropna then filter (fun r => has_na (key_of r) = false) df else df in
  (fun k =>
     let members := filter (fun r => key_of r = k) kept in
     {| agg_key := k;
        agg_names := Attribute_Names <$> members;
        agg_values := Attribute_Values <$> members |})
  <$> merge_sort key_le (remove_dups (key_of <$> kept)).

Definition cell_of_num (x : option Z) : pyval :=
  match x with
  | Some n => Int n
  | None => NaN
  end.

Definition cell_of_text (x : option string) : pyval :=
  match x with
  | Some s => Str s
  | None => NaN
  end.

(** The cells of the six key columns of a grouped row. *)
Definition key_cells (k : key) : list pyval :=
  let '(i, mk, tn, tf, mo, mt) := k in
  [cell_of_num i; cell_of_text mk; cell_of_text tn; cell_of_text tf;
   cell_of_text mo; cell_of_text mt].

(** [series.astype('str')] on a text column: a missing value becomes the
    text [nan]. *)
Definition astype_str (x : option string) : option string :=
  match x with
  | Some s => Some s
  | None => Some "nan"
  end.

(** [{k: v for k, v in pairs}]: a later pair overwrites an earlier one with
    the same key. *)
Definition dict_of (pairs : list (string * pyval)) : Series :=
  foldl (fun d kv => <[kv.1 := kv.2]> d) ∅ pairs.

(** [d.update(e)] *)
Definition update (d e : Series) : Series := e ∪ d.

(** The frame built from one Series per row: its columns are all the labels
    that occur, and a row without a label has NaN there. *)
Definition DataFrame (rows : list Series) : list Series :=
  let columns : gset string := ⋃ (dom <$> rows) in
  (fun row => row ∪ gset_to_gmap NaN columns) <$> rows.

End pandas.

(** ** onedot_solution.py *)

Module onedot_solution.
Import pandas.

Definition CONSTANT_COLUMNS : list string :=
  ["ID"; "MakeText"; "TypeName"; "TypeNameFull"; "ModelText"; "ModelTypeText"].

Definition aggregate_attributes (row : agg_row) : Series :=
  let attr := dict_of (zip (agg_names row) (agg_values row)) in
  update attr (list_to_map (zip CONSTANT_COLUMNS (key_cells (agg_key row)))).

(** [groupby] is called without [dropna], so with its default [True]. *)
Definition agg_data (df : list raw_row) : list Series :=
  DataFrame (aggregate_attributes <$> groupby_agg_list true (sort_values df)).

Definition cartype_table : list (string * string) :=
  [("Coupé", "Coupé"); ("Limousine", "Saloon");
   ("Cabriolet", "Convertible / Roadster"); ("Kombi", "Station Wagon");
   ("SUV / Geländewagen", "SUV")].

Definition normalize_cartype (row : Series) : result pyval :=
  seats ← getitem row "Seats";
  if py_eq seats (Int 1) then Ok (Str "Single seater")
  else
    except_KeyError
      (body ← getitem row "BodyTypeText"; dict_getitem cartype_table body)
      (Ok (Str "Other")).

Definition color_table : list (string * list string) :=
  [("Black", ["schwarz"]); ("Silver", ["silber"]); ("Blue", ["blau"]);
   ("Gray", ["grau"; "anthrazit"]); ("White", ["weiss"]);
   ("Red", ["red"; "bordeaux"]); ("Green", ["grün"]); ("Yellow", ["gelb"]);
   ("Purple", ["violett"]); ("Gold", ["gold"]); ("Brown", ["braun"]);
   ("Orange", ["orange"]); ("Beige", ["beige"])].

(** The inner loop of [normalize_color]: [true] when it returns. *)
Fixpoint color_germans (row : Series) (germans : list string) : result bool :=
  match germans with
  | [] => Ok false
  | german :: rest =>
      text ← getitem row "BodyColorText";
      hit ← py_in german text;
      if hit : bool then Ok true else color_germans row rest
  end.

Fixpoint color_pairs (row : Series) (pairs : list (string * list string)) : result pyval :=
  match pairs with
  | [] => Ok (Str "Other")
  | (english, germans) :: rest =>
      hit ← color_germans row germans;
      if hit : bool then Ok (Str english) else color_pairs row rest
  end.

Definition normalize_color (row : Series) : result pyval :=
  color_pairs row color_table.

Definition condition_table : list (string * string) :=
  [("Occasion", "Used"); ("Oldtimer", "Restored"); ("Neu", "New");
   ("Vorführmodell", "Original Condition")].

Definition normalize_condition (row : Series) : result pyval :=
  except_KeyError
    (cond ← getitem row "ConditionTypeText"; dict_getitem condition_table cond)
    (Ok (Str "Other")).

Definition zip_table : list (string * string) :=
  [("Zuzwil", "9524"); ("Porrentruy", "2900"); ("Sursee", "6210");
   ("Safenwil", "5745"); ("Basel", "4000"); ("St. Galen", "9000")].

Definition normalize_zip (row : Series) : result pyval :=
  except_KeyError
    (city ← getitem row "City"; dict_getitem zip_table city)
    (Ok (Str "Other")).

Section Normalization.
(** [str.lower], the case mapping of Python texts. *)
Variable lower : string → string.

Definition normalize_variant (row : Series) : result pyval :=
  model ← getitem row "ModelText" ≫= py_strip;
  model_variant ← getitem row "ModelTypeText" ≫= py_strip;
  if String.eqb (lower (PyStr.slice_to (PyStr.len model) model_variant)) (lower model)
  then Ok (Str (PyStr.strip (PyStr.slice_from (PyStr.len model) model_variant)))
  else getitem row "TypeName".

Definition NORM_FUNCTIONS : list (string * (Series → result pyval)) :=
  [("BodyTypeText", normalize_cartype);
   ("BodyColorText", normalize_color);
   ("Condition", normalize_condition);
   ("Variant", normalize_variant);
   ("Zip", normalize_zip)].

Definition normalize (row : Series) : result Series :=
  assign_each NORM_FUNCTIONS row.

Definition normalized_data (df : list raw_row) : result (list Series) :=
  apply_rows normalize (agg_data df).

End Normalization.

(** The [condition] entry reads the column [ConditionTypeText]. *)
Definition integrate (row : Series) : result Series :=
  carType ← getitem row "BodyTypeText";
  color ← getitem row "BodyColorText";
  condition ← getitem row "ConditionTypeText";
  city ← getitem row "City";
  make ← getitem row "MakeText";
  manufacture_year ← getitem row "FirstRegYear";
  mileage ← getitem row "Km";
  model ← getitem row "ModelText";
  model_variant ← getitem row "Variant";
  zip_code ← getitem row "Zip";
  manufacture_month ← getitem row "FirstRegMonth";
  consumption ← getitem row "ConsumptionTotalText";
  Ok (list_to_map
    [("carType", carType);
     ("color", color);
     ("condition", condition);
     ("currency", Str "CHF");
     ("drive", Str "LHD");
     ("city", city);
     ("country", Str "CH");
     ("make", make);
     ("manufacture_year", manufacture_year);
     ("mileage", mileage);
     ("mileage_unit", Str "kilometer");
     ("model", model);
     ("model_variant", model_variant);
     ("price_on_request", PyNone);
     ("type", Str "car");
     ("zip", zip_code);
     ("manufacture_month", manufacture_month);
     ("fuel_consumption_unit",
      if truthy consumption && py_ne consumption (Str "null")
      then Str "l_km_consumption" else PyNone)]).

Definition formated_data (lower : string → string) (df : list raw_row)
    : result (list Series) :=
  normalized_data lower df ≫= apply_rows integrate.

End onedot_solution.

(** ** onedot_data_analyst_solution.py *)

Module onedot_data_analyst_solution.
Import pandas.

(** The column list that the script spells out in [groupby] and again in
    [aggr_attr]. *)
Definition group_columns : list string :=
  ["ID"; "MakeText"; "TypeName"; "TypeNameFull"; "ModelText"; "ModelTypeText"].

(** [df.groupby(..., dropna=False)] followed by [.agg(...).reset_index()] *)
Definition df_grp (df : list raw_row) : list agg_row :=
  groupby_agg_list false (sort_values df).

(** [df_grp_agg['ModelText'] = df_grp_agg['ModelText'].astype('str')] *)
Definition ModelText_astype_str (row : agg_row) : agg_row :=
  let '(i, mk, tn, tf, mo, mt) := agg_key row in
  {| agg_key := (i, mk, tn, tf, astype_str mo, mt);
     agg_names := agg_names row;
     agg_values := agg_values row |}.

Definition df_grp_agg (df : list raw_row) : list agg_row :=
  ModelText_astype_str <$> df_grp df.

Definition aggr_attr (row : agg_row) : Series :=
  let attr := dict_of (zip (agg_names row) (agg_values row)) in
  update attr (list_to_map (zip group_columns (key_cells (agg_key row)))).

Definition df_grp_agg_attr (df : list raw_row) : list Series :=
  DataFrame (aggr_attr <$> df_grp_agg df).

Definition cartype_table : list (string * string) :=
  [("Coupé", "Coupé"); ("Limousine", "Saloon");
   ("Cabriolet", "Convertible / Roadster"); ("Kombi", "Station Wagon");
   ("SUV / Geländewagen", "SUV")].

(** The seat count is compared with the text [1]. *)
Definition norm_cartype (row : Series) : result pyval :=
  seats ← getitem row "Seats";
  if py_eq seats (Str "1") then Ok (Str "Single seater")
  else
    except_KeyError
      (body ← getitem row "BodyTypeText"; dict_getitem cartype_table body)
      (Ok (Str "Other")).

Definition color_table : list (string * list string) :=
  [("Black", ["schwarz"]); ("Silver", ["silber"]); ("Blue", ["blau"]);
   ("Gray", ["grau"; "anthrazit"]); ("White", ["weiss"]);
   ("Red", ["red"; "bordeaux"]); ("Green", ["grün"]); ("Yellow", ["gelb"]);
   ("Purple", ["violett"]); ("Gold", ["gold"]); ("Brown", ["braun"]);
   ("Orange", ["orange"]); ("Beige", ["beige"])].

Fixpoint color_items (row : Series) (color_de : list string) : result bool :=
  match color_de with
  | [] => Ok false
  | item :: rest =>
      text ← getitem row "BodyColorText";
      hit ← py_in item text;
      if hit : bool then Ok true else color_items row rest
  end.

Fixpoint color_pairs (row : Series) (pairs : list (string * list string)) : result pyval :=
  match pairs with
  | [] => Ok (Str "Other")
  | (color_en, color_de) :: rest =>
      hit ← color_items row color_de;
      if hit : bool then Ok (Str color_en) else color_pairs row rest
  end.

Definition norm_color (row : Series) : result pyval :=
  color_pairs row color_table.

Definition condition_table : list (string * string) :=
  [("Occasion", "Used"); ("Oldtimer", "Restored"); ("Neu", "New");
   ("Vorführmodell", "Original Condition")].

Definition norm_condition (row : Series) : result pyval :=
  except_KeyError
    (cond ← getitem row "ConditionTypeText"; dict_getitem condition_table cond)
    (Ok (Str "Other")).

Definition zip_table : list (string * string) :=
  [("Zuzwil", "9524"); ("Porrentruy", "2900"); ("Sursee", "6210");
   ("Safenwil", "5745"); ("Basel", "4000"); ("St. Galen", "9000")].

Definition norm_zip (row : Series) : result pyval :=
  except_KeyError
    (city ← getitem row "City"; dict_getitem zip_table city)
    (Ok (Str "Other")).

Section Normalization.
(** [str.lower], the case mapping of Python texts. *)
Variable lower : string → string.

Definition norm_variant (row : Series) : result pyval :=
  model ← getitem row "ModelText" ≫= py_strip;
  model_variant ← getitem row "ModelTypeText" ≫= py_strip;
  if String.eqb (lower (PyStr.slice_to (PyStr.len model) model_variant)) (lower model)
  then Ok (Str (PyStr.strip (PyStr.slice_from (PyStr.len model) model_variant)))
  else getitem row "TypeName".

Definition NORM_FUNCT : list (string * (Series → result pyval)) :=
  [("BodyTypeText", norm_cartype);
   ("BodyColorText", norm_color);
   ("Condition", norm_condition);
   ("Variant", norm_variant);
   ("Zip", norm_zip)].

Definition normalize (row : Series) : result Series :=
  assign_each NORM_FUNCT row.

Definition normalized_df (df : list raw_row) : result (list Series) :=
  apply_rows normalize (df_grp_agg_attr df).

End Normalization.

(** The [condition] entry reads the column [Condition] that [normalize]
    assigned. *)
Definition integrate (row : Series) : result Series :=
  carType ← getitem row "BodyTypeText";
  color ← getitem row "BodyColorText";
  condition ← getitem row "Condition";
  city ← getitem row "City";
  make ← getitem row "MakeText";
  manufacture_year ← getitem row "FirstRegYear";
  mileage ← getitem row "Km";
  model ← getitem row "ModelText";
  model_variant ← getitem row "Variant";
  zip_code ← getitem row "Zip";
  manufacture_month ← getitem row "FirstRegMonth";
  consumption ← getitem row "ConsumptionTotalText";
  Ok (list_to_map
    [("carType", carType);
     ("color", color);
     ("condition", condition);
     ("currency", Str "CHF");
     ("drive", Str "LHD");
     ("city", city);
     ("country", Str "CH");
     ("make", make);
     ("manufacture_year", manufacture_year);
     ("mileage", mileage);
     ("mileage_unit", Str "kilometer");
     ("model", model);
     ("model_variant", model_variant);
     ("price_on_request", PyNone);
     ("type", Str "car");
     ("zip", zip_code);
     ("manufacture_month", manufacture_month);
     ("fuel_consumption_unit",
      if truthy consumption && py_ne consumption (Str "null")
      then Str "l_km_consumption" else PyNone)]).

Definition integrated_df (lower : string → string) (df : list raw_row)
    : result (list Series) :=
  normalized_df lower df ≫= apply_rows integrate.

End onedot_data_analyst_solution.

(** ** The two scripts side by side *)

Inductive script : Type := Solution | DataAnalyst.

Definition aggregate (impl : script) : list pandas.raw_row → list Series :=
  match impl with
  | Solution => onedot_solution.agg_data
  | DataAnalyst => onedot_data_analyst_solution.df_grp_agg_attr
  end.

Definition cartype_rule (impl : script) : Series → result pyval :=
  match impl with
  | Solution => onedot_solution.normalize_cartype
  | DataAnalyst => onedot_data_analyst_solution.norm_cartype
  end.

Definition color_table_of (impl : script) : list (string * list string) :=
  match impl with
  | Solution => onedot_solution.color_table
  | DataAnalyst => onedot_data_analyst_solution.color_table
  end.

Definition color_rule (impl : script) : Series → result pyval :=
  match impl with
  | Solution => onedot_solution.normalize_color
  | DataAnalyst => onedot_data_analyst_solution.norm_color
  end.

Definition condition_rule (impl : script) : Series → result pyval :=
  match impl with
  | Solution => onedot_solution.normalize_condition
  | DataAnalyst => onedot_data_analyst_solution.norm_condition
  end.

Definition variant_rule (impl : script) (lower : string → string)
    : Series → result pyval :=
  match impl with
  | Solution => onedot_solution.normalize_variant lower
  | DataAnalyst => onedot_data_analyst_solution.norm_variant lower
  end.

Definition zip_rule (impl : script) : Series → result pyval :=
  match impl with
  | Solution => onedot_solution.normalize_zip
  | DataAnalyst => onedot_data_analyst_solution.norm_zip
  end.

Definition rules_of (impl : script) (lower : string → string)
    : list (string * (Series → result pyval)) :=
  match impl with
  | Solution => onedot_solution.NORM_FUNCTIONS lower
  | DataAnalyst => onedot_data_analyst_solution.NORM_FUNCT lower
  end.

Definition normalize_of (impl : script) (lower : string → string)
    : Series → result Series :=
  match impl with
  | Solution => onedot_solution.normalize lower
  | DataAnalyst => onedot_data_analyst_solution.normalize lower
  end.

Definition integrate_of (impl : script) : Series → result Series :=
  match impl with
  | Solution => onedot_solution.integrate
  | DataAnalyst => onedot_data_analyst_solution.integrate
  end.

(** The stages of a script as functions of its frame.  Reading the
    catalog and converting the identifier come before the frame and are no
    part of them. *)
Definition normalized_of (impl : script) (lower : string → string)
    : list pandas.raw_row → result (list Series) :=
  match impl with
  | Solution => onedot_solution.normalized_data lower
  | DataAnalyst => onedot_data_analyst_solution.normalized_df lower
  end.

Definition integrated_of (impl : script) (lower : string → string)
    : list pandas.raw_row → result (list Series) :=
  match impl with
  | Solution => onedot_solution.formated_data lower
  | DataAnalyst => onedot_data_analyst_solution.integrated_df lower
  end.

(** ** Sample inputs *)

Module Samples.
Import pandas.

(** The rows of one vehicle: the same constant fields, one attribute each. *)
Definition vehicle (id : Z) (model model_type : option string)
    (attrs : list (string * pyval)) : list raw_row :=
  (fun nv =>
     {| ID := Some id; MakeText := Some "Audi"; TypeName := Some "A4 Avant 2.0";
        TypeNameFull := Some "Audi A4 Avant 2.0"; ModelText := model;
        ModelTypeText := model_type;
        Attribute_Names := nv.1; Attribute_Values := nv.2 |}) <$> attrs.

(** Every attribute that the pipeline reads, as the texts of the catalog. *)
Definition all_attributes : list (string * pyval) :=
  [("Seats", Str "1"); ("BodyTypeText", Str "Limousine");
   ("BodyColorText", Str "schwarz metallic");
   ("ConditionTypeText", Str "Occasion"); ("City", Str "Basel");
   ("FirstRegYear", Str "2015"); ("FirstRegMonth", Str "3");
   ("Km", Str "52000"); ("ConsumptionTotalText", Str "6.1 l/100km")].

Definition without (name : string) (attrs : list (string * pyval))
    : list (string * pyval) :=
  filter (fun nv => nv.1 ≠ name) attrs.

(** A catalog with a single, fully described vehicle. *)
Definition one_vehicle : list raw_row :=
  vehicle 5 (Some "A4") (Some "A4 Avant") all_attributes.

(** A second vehicle comes without a colour. *)
Definition colour_missing : list raw_row :=
  one_vehicle
  ++ vehicle 6 (Some "A4") (Some "A4 Avant") (without "BodyColorText" all_attributes).

(** A second vehicle comes without a consumption text. *)
Definition consumption_missing : list raw_row :=
  one_vehicle
  ++ vehicle 6 (Some "A4") (Some "A4 Avant")
       (without "ConsumptionTotalText" all_attributes).

(** A vehicle whose model text is missing. *)
Definition model_missing : list raw_row :=
  vehicle 7 None (Some "A4 Avant") all_attributes.

(** A vehicle whose model-type text is missing. *)
Definition model_type_missing : list raw_row :=
  vehicle 8 (Some "A4") None all_attributes.

(** The record that either script aggregates from [one_vehicle]. *)
Definition one_record : Series :=
  list_to_map
    ([("ID", Int 5); ("MakeText", Str "Audi"); ("TypeName", Str "A4 Avant 2.0");
      ("TypeNameFull", Str "Audi A4 Avant 2.0"); ("ModelText", Str "A4");
      ("ModelTypeText", Str "A4 Avant")] ++ all_attributes).

(** A row with just the three cells that the variant rule reads. *)
Definition variant_row (model model_type type_name : string) : Series :=
  list_to_map
    [("ModelText", Str model); ("ModelTypeText", Str model_type);
     ("TypeName", Str type_name)].

End Samples.

(** ** Aggregated records and their keys *)

(** The key of a group as the script stores it in the record: the second
    script replaces a missing model text by the text [nan]. *)
Definition stored_key (impl : script) (k : pandas.key) : pandas.key :=
  match impl with
  | Solution => k
  | DataAnalyst =>
      let '(i, mk, tn, tf, mo, mt) := k in (i, mk, tn, tf, pandas.astype_str mo, mt)
  end.

(** The six constant columns with their cells. *)
Definition constant_cells (impl : script) (k : pandas.key) : list (string * pyval) :=
  zip onedot_solution.CONSTANT_COLUMNS (pandas.key_cells (stored_key impl k)).

(** The record holds the constant cells of the key. *)
Definition carries_key (impl : script) (k : pandas.key) (record : Series) : Prop :=
  ∀ column cell, (column, cell) ∈ constant_cells impl k → record !! column = Some cell.

(** The function that turns a grouped row into a record. *)
Definition record_of_group (impl : script) (g : pandas.agg_row) : Series :=
  match impl with
  | Solution => onedot_solution.aggregate_attributes g
  | DataAnalyst =>
      onedot_data_analyst_solution.aggr_attr
        (onedot_data_analyst_solution.ModelText_astype_str g)
  end.

(** The [dropna] argument of the script's [groupby]. *)
Definition dropna_of (impl : script) : bool :=
  match impl with
  | Solution => true
  | DataAnalyst => false
  end.

(** ** Sample records *)

Module SampleRecords.

(** What a script makes of [Samples.one_record]: the normalized record and
    the integrated record, the empty row standing in for an exception. *)
Definition normalized (impl : script) : Series :=
  default ∅ (outcome (normalize_of impl PyStr.ascii_lower Samples.one_record)).

Definition integrated (impl : script) : Series :=
  default ∅ (outcome (integrate_of impl (normalized impl))).


(** The record at position [i] of a frame, the empty row when there is
    none. *)
Definition record_at (frame : list Series) (i : nat) : Series :=
  default ∅ (frame !! i).


End SampleRecords.

(** * Facts *)

(** ** Texts *)

Module PyStrFacts.
Import PyStr.

Lemma append_cons a s t : String a s +:+ t = String a (s +:+ t).
Proof. done. Qed.


Lemma append_nil_r s : s +:+ EmptyString = s.
Proof. induction s as [|a s IH]; [done | by rewrite append_cons, IH]. Qed.

Lemma append_assoc s t u : (s +:+ t) +:+ u = s +:+ (t +:+ u).
Proof. induction s as [|a s IH]; [done | by rewrite !append_cons, IH]. Qed.

Lemma prefix_app needle hay :
  String.prefix needle hay = true ↔ ∃ rest, hay = needle +:+ rest.
Proof.
  revert hay. induction needle as [|a needle IH]; intros hay; simpl.
  - destruct hay; split; eauto.
  - destruct hay as [|b hay]; simpl.
    + split; [done | intros [rest H]; discriminate].
    + destruct (Ascii.ascii_dec a b) as [->|Hne].
      * rewrite IH. split; intros [rest H]; exists rest.
        -- by rewrite append_cons, H.
        -- rewrite append_cons in H. congruence.
      * split; [done | intros [rest H]]. rewrite append_cons in H. congruence.
Qed.

Lemma contains_nil needle :
  contains needle EmptyString = String.prefix needle EmptyString.
Proof. unfold contains. apply orb_false_r. Qed.

Lemma contains_cons needle b hay :
  contains needle (String b hay)
  = String.prefix needle (String b hay) || contains needle hay.
Proof. done. Qed.

(** The containment test holds exactly when the needle occurs somewhere in
    the text. *)
Lemma contains_occurs needle hay :
  contains needle hay = true ↔ ∃ before after, hay = before +:+ needle +:+ after.
Proof.
  induction hay as [|b hay IH].
  - rewrite contains_nil, prefix_app. split.
    + intros [rest H]. exists EmptyString, rest. done.
    + intros ([|c before] & after & H); [eauto | discriminate].
  - rewrite contains_cons, orb_true_iff, prefix_app, IH. split.
    + intros [[rest H] | (before & after & H)].
      * exists EmptyString, rest. done.
      * exists (String b before), after. by rewrite append_cons, H.
    + intros ([|c before] & after & H).
      * left. eauto.
      * right. exists before, after. rewrite append_cons in H. congruence.
Qed.

Lemma join_app cs ds : join (cs ++ ds)%list = join cs +:+ join ds.
Proof.
  induction cs as [|c cs IH]; simpl; [done |].
  by rewrite IH, append_assoc.
Qed.

Lemma join_cons c cs : join (c :: cs) = c +:+ join cs.
Proof. done. Qed.

Lemma join_chars s : join (chars s) = s.
Proof.
  induction s as [|a s IH]; simpl; [done |].
  destruct (chars s) as [|c cs].
  - by rewrite <- IH.
  - rewrite join_cons in IH.
    destruct (starts_with_cont c); rewrite !join_cons, ?append_cons; by rewrite <- IH.
Qed.

(** A slice at [n] cuts the text in two. *)
Lemma slice_split n s : slice_to n s +:+ slice_from n s = s.
Proof.
  unfold slice_to, slice_from.
  by rewrite <- join_app, take_drop, join_chars.
Qed.


















Lemma strip_empty : strip EmptyString = EmptyString.
Proof. done. Qed.

End PyStrFacts.

(** ** The loop of [normalize] *)

Module LoopFacts.

Lemma independent_cons x items : independent (x :: items) → independent items.
Proof.
  intros [Hnd Hind]. split.
  - by inversion Hnd.
  - intros a b Ha Hb. apply Hind; by right.
Qed.

Lemma independent_perm items items' :
  items ≡ₚ items' → independent items → independent items'.
Proof.
  intros Hp [Hnd Hind]. split.
  - by rewrite <- Hp.
  - intros a b Ha Hb. apply Hind; by rewrite Hp.
Qed.

Lemma independent_head x y items (row : Series) v :
  independent (x :: y :: items) →
  x.2 (<[y.1 := v]> row) = x.2 row ∧ y.2 (<[x.1 := v]> row) = y.2 row ∧ x.1 ≠ y.1.
Proof.
  intros [Hnd Hind].
  assert (x.1 ≠ y.1) as Hne.
  { inversion Hnd as [|? ? Hx _]; subst. intros Heq. apply Hx. rewrite Heq. by left. }
  split_and!; [apply Hind | apply Hind |]; try done.
  - by left.
  - right. by left.
  - right. by left.
  - by left.
Qed.

(** Reordering independent rules changes neither whether the loop raises
    nor the row it returns. *)
Lemma assign_each_perm items items' :
  items ≡ₚ items' → independent items →
  ∀ row, outcome (assign_each items row) = outcome (assign_each items' row).
Proof.
  induction 1 as [|x l l' Hp IH|x y l|l l' l'' Hp1 IH1 Hp2 IH2]; intros Hind row.
  - done.
  - destruct x as [column funct]. simpl.
    destruct (funct row) as [v|e]; simpl; [|done].
    apply IH. by apply independent_cons in Hind.
  - destruct x as [cx fx], y as [cy fy]. simpl.
    destruct (fx row) as [vx|ex] eqn:Hx, (fy row) as [vy|ey] eqn:Hy; simpl.
    + destruct (independent_head (cy, fy) (cx, fx) l row vy Hind) as (_ & Hx' & Hne).
      destruct (independent_head (cy, fy) (cx, fx) l row vx Hind) as (Hy' & _ & _).
      simpl in *. rewrite Hx', Hy', Hx, Hy. simpl.
      by rewrite insert_insert_ne.
    + destruct (independent_head (cy, fy) (cx, fx) l row vx Hind) as (Hy' & _ & _).
      simpl in *. by rewrite Hy', Hy.
    + destruct (independent_head (cy, fy) (cx, fx) l row vy Hind) as (_ & Hx' & _).
      simpl in *. by rewrite Hx', Hx.
    + done.
  - rewrite IH1 by done. apply IH2. by apply (independent_perm l).
Qed.

End LoopFacts.

(** ** The rewrite rules *)

Module RuleFacts.
Import PyStr PyStrFacts.

(** *** What each rule reads *)

Lemma getitem_reads (row row' : Series) label :
  row !! label = row' !! label → getitem row label = getitem row' label.
Proof. unfold getitem. by intros ->. Qed.

Lemma normalize_cartype_reads (row row' : Series) :
  row !! "Seats" = row' !! "Seats" →
  row !! "BodyTypeText" = row' !! "BodyTypeText" →
  onedot_solution.normalize_cartype row = onedot_solution.normalize_cartype row'.
Proof. unfold onedot_solution.normalize_cartype, getitem. by intros -> ->. Qed.

Lemma norm_cartype_reads (row row' : Series) :
  row !! "Seats" = row' !! "Seats" →
  row !! "BodyTypeText" = row' !! "BodyTypeText" →
  onedot_data_analyst_solution.norm_cartype row = onedot_data_analyst_solution.norm_cartype row'.
Proof. unfold onedot_data_analyst_solution.norm_cartype, getitem. by intros -> ->. Qed.

Lemma color_germans_reads (row row' : Series) germans :
  row !! "BodyColorText" = row' !! "BodyColorText" →
  onedot_solution.color_germans row germans = onedot_solution.color_germans row' germans.
Proof.
  intros H. induction germans as [|german rest IH]; simpl; [done |].
  by rewrite (getitem_reads row row'), IH.
Qed.

Lemma color_pairs_reads (row row' : Series) pairs :
  row !! "BodyColorText" = row' !! "BodyColorText" →
  onedot_solution.color_pairs row pairs = onedot_solution.color_pairs row' pairs.
Proof.
  intros H. induction pairs as [|[english germans] rest IH]; simpl; [done |].
  by rewrite (color_germans_reads row row'), IH.
Qed.

Lemma normalize_color_reads (row row' : Series) :
  row !! "BodyColorText" = row' !! "BodyColorText" →
  onedot_solution.normalize_color row = onedot_solution.normalize_color row'.
Proof. apply color_pairs_reads. Qed.

Lemma normalize_condition_reads (row row' : Series) :
  row !! "ConditionTypeText" = row' !! "ConditionTypeText" →
  onedot_solution.normalize_condition row = onedot_solution.normalize_condition row'.
Proof. unfold onedot_solution.normalize_condition, getitem. by intros ->. Qed.

Lemma normalize_zip_reads (row row' : Series) :
  row !! "City" = row' !! "City" →
  onedot_solution.normalize_zip row = onedot_solution.normalize_zip row'.
Proof. unfold onedot_solution.normalize_zip, getitem. by intros ->. Qed.

Lemma normalize_variant_reads lower (row row' : Series) :
  row !! "ModelText" = row' !! "ModelText" →
  row !! "ModelTypeText" = row' !! "ModelTypeText" →
  row !! "TypeName" = row' !! "TypeName" →
  onedot_solution.normalize_variant lower row = onedot_solution.normalize_variant lower row'.
Proof. unfold onedot_solution.normalize_variant, getitem. by intros -> -> ->. Qed.

(** *** Where the two scripts have the same rule *)

Lemma color_items_eq row color_de :
  onedot_data_analyst_solution.color_items row color_de = onedot_solution.color_germans row color_de.
Proof. induction color_de as [|item rest IH]; simpl; [done | by rewrite IH]. Qed.

Lemma color_pairs_eq row pairs : onedot_data_analyst_solution.color_pairs row pairs = onedot_solution.color_pairs row pairs.
Proof.
  induction pairs as [|[english germans] rest IH]; simpl; [done |].
  by rewrite color_items_eq, IH.
Qed.

Lemma norm_color_eq row : onedot_data_analyst_solution.norm_color row = onedot_solution.normalize_color row.
Proof. apply color_pairs_eq. Qed.

Lemma norm_condition_eq row : onedot_data_analyst_solution.norm_condition row = onedot_solution.normalize_condition row.
Proof. done. Qed.

Lemma norm_zip_eq row : onedot_data_analyst_solution.norm_zip row = onedot_solution.normalize_zip row.
Proof. done. Qed.

Lemma norm_variant_eq lower row :
  onedot_data_analyst_solution.norm_variant lower row = onedot_solution.normalize_variant lower row.
Proof. done. Qed.

(** The carType rules differ only in the seat test. *)
Lemma norm_cartype_eq (row : Series) :
  row !! "Seats" ≠ Some (Int 1) → row !! "Seats" ≠ Some (Str "1") →
  onedot_data_analyst_solution.norm_cartype row = onedot_solution.normalize_cartype row.
Proof.
  unfold onedot_data_analyst_solution.norm_cartype, onedot_solution.normalize_cartype, getitem.
  intros H1 H2. destruct (row !! "Seats") as [seats|]; [|done]. simpl.
  assert (py_eq seats (Str "1") = false) as ->.
  { destruct seats as [| |s|n]; try done. simpl.
    apply String.eqb_neq. congruence. }
  assert (py_eq seats (Int 1) = false) as ->.
  { destruct seats as [| |s|n]; try done. simpl.
    apply Z.eqb_neq. congruence. }
  done.
Qed.

(** *** Independence of the five rules *)

Ltac split_elem H :=
  repeat (apply elem_of_cons in H as [->|H]); [..| by apply elem_of_nil in H].

Ltac untouched :=
  first [ apply normalize_cartype_reads | apply norm_cartype_reads
        | apply normalize_color_reads | apply normalize_condition_reads
        | apply normalize_zip_reads | apply normalize_variant_reads ];
  by rewrite lookup_insert_ne.

Lemma NORM_FUNCTIONS_independent lower : independent (onedot_solution.NORM_FUNCTIONS lower).
Proof.
  split; [compute_done |].
  intros x y Hx Hy Hne row v. unfold onedot_solution.NORM_FUNCTIONS in Hx, Hy.
  split_elem Hx; split_elem Hy; simpl in *; try done; untouched.
Qed.

Lemma NORM_FUNCT_independent lower : independent (onedot_data_analyst_solution.NORM_FUNCT lower).
Proof.
  split; [compute_done |].
  intros x y Hx Hy Hne row v. unfold onedot_data_analyst_solution.NORM_FUNCT in Hx, Hy.
  split_elem Hx; split_elem Hy; simpl in *; try done;
    rewrite ?norm_color_eq, ?norm_condition_eq, ?norm_zip_eq, ?norm_variant_eq;
    untouched.
Qed.


Lemma bind_Ok {X Y} (m : result X) (f : X → result Y) y :
  m ≫= f = Ok y → ∃ x, m = Ok x ∧ f x = Ok y.
Proof. destruct m as [x|e]; [eauto | done]. Qed.

Lemma Ok_inj {X} (x y : X) : Ok x = Ok y → x = y.
Proof. congruence. Qed.

Lemma getitem_Ok (row : Series) label v :
  getitem row label = Ok v ↔ row !! label = Some v.
Proof. unfold getitem. destruct (row !! label); split; congruence. Qed.

(** *** The colour rule on a text *)

Lemma existsb_occurs text germans :
  existsb (fun german => contains german text) germans = true
  ↔ ∃ german, german ∈ germans ∧ occurs german text.
Proof.
  rewrite existsb_exists. unfold occurs.
  split; intros (german & Hin & H); exists german.
  - by rewrite list_elem_of_In, <- contains_occurs.
  - by rewrite <- list_elem_of_In, contains_occurs.
Qed.

Lemma color_germans_text (row : Series) text germans :
  row !! "BodyColorText" = Some (Str text) →
  onedot_solution.color_germans row germans
  = Ok (existsb (fun german => contains german text) germans).
Proof.
  intros Hrow. induction germans as [|german rest IH]; [done |].
  cbn [onedot_solution.color_germans existsb]. unfold getitem. rewrite Hrow.
  cbn [mbind result_bind py_in].
  destruct (contains german text); [done | by rewrite IH].
Qed.

Lemma color_pairs_text (row : Series) text english germans rest :
  row !! "BodyColorText" = Some (Str text) →
  onedot_solution.color_pairs row ((english, germans) :: rest)
  = if existsb (fun german => contains german text) germans
    then Ok (Str english) else onedot_solution.color_pairs row rest.
Proof.
  intros Hrow. cbn [onedot_solution.color_pairs].
  by rewrite (color_germans_text row text).
Qed.

Lemma color_pairs_none (row : Series) text pairs :
  row !! "BodyColorText" = Some (Str text) →
  (∀ pair german, pair ∈ pairs → german ∈ pair.2 → ¬ occurs german text) →
  onedot_solution.color_pairs row pairs = Ok (Str "Other").
Proof.
  intros Hrow. induction pairs as [|[english germans] rest IH]; intros Hno; [done |].
  rewrite (color_pairs_text row text) by done.
  destruct (existsb _ germans) eqn:Hex.
  - apply existsb_occurs in Hex as (german & Hin & Hocc).
    destruct (Hno (english, germans) german); [by left | done | done].
  - apply IH. intros pair german Hpair. apply Hno. by right.
Qed.

Lemma color_pairs_first (row : Series) text earlier english germans later :
  row !! "BodyColorText" = Some (Str text) →
  (∃ german, german ∈ germans ∧ occurs german text) →
  (∀ pair german, pair ∈ earlier → german ∈ pair.2 → ¬ occurs german text) →
  onedot_solution.color_pairs row (earlier ++ (english, germans) :: later)%list = Ok (Str english).
Proof.
  intros Hrow Hhit. induction earlier as [|[english' germans'] rest IH]; intros Hno.
  - rewrite app_nil_l, (color_pairs_text row text) by done.
    apply existsb_occurs in Hhit. by rewrite Hhit.
  - rewrite <- app_comm_cons, (color_pairs_text row text) by done.
    destruct (existsb _ germans') eqn:Hex.
    + apply existsb_occurs in Hex as (german & Hin & Hocc).
      destruct (Hno (english', germans') german); [by left | done | done].
    + apply IH. intros pair german Hpair. apply Hno. by right.
Qed.

(** Without a text in the colour cell the rule raises. *)
Lemma normalize_color_no_text (row : Series) :
  (∀ text, row !! "BodyColorText" ≠ Some (Str text)) →
  onedot_solution.normalize_color row
  = Raise (if row !! "BodyColorText" is Some _ then TypeError else KeyError).
Proof.
  intros Hno. unfold onedot_solution.normalize_color, onedot_solution.color_table.
  cbn [onedot_solution.color_pairs onedot_solution.color_germans]. unfold getitem.
  destruct (row !! "BodyColorText") as [[| |text|n]|] eqn:E; try done.
  by destruct (Hno text).
Qed.

(** *** The carType rule *)

Lemma normalize_cartype_single (row : Series) :
  row !! "Seats" = Some (Int 1) →
  onedot_solution.normalize_cartype row = Ok (Str "Single seater").
Proof. unfold onedot_solution.normalize_cartype, getitem. by intros ->. Qed.

Lemma norm_cartype_single (row : Series) :
  row !! "Seats" = Some (Str "1") →
  onedot_data_analyst_solution.norm_cartype row = Ok (Str "Single seater").
Proof. unfold onedot_data_analyst_solution.norm_cartype, getitem. by intros ->. Qed.

(** With a seat cell other than the integer 1 the first script goes to the
    table, also when the cell is the text [1]. *)
Lemma normalize_cartype_table (row : Series) seats :
  row !! "Seats" = Some seats → seats ≠ Int 1 →
  onedot_solution.normalize_cartype row
  = except_KeyError
      (getitem row "BodyTypeText" ≫= dict_getitem onedot_solution.cartype_table)
      (Ok (Str "Other")).
Proof.
  unfold onedot_solution.normalize_cartype, getitem. intros -> Hne.
  cbn [mbind result_bind].
  destruct seats as [| |s|n]; try done.
  cbn [py_eq]. destruct (Z.eqb_spec n 1) as [->|]; done.
Qed.

Lemma norm_cartype_table (row : Series) seats :
  row !! "Seats" = Some seats → seats ≠ Str "1" →
  onedot_data_analyst_solution.norm_cartype row
  = except_KeyError
      (getitem row "BodyTypeText" ≫= dict_getitem onedot_data_analyst_solution.cartype_table)
      (Ok (Str "Other")).
Proof.
  unfold onedot_data_analyst_solution.norm_cartype, getitem. intros -> Hne.
  cbn [mbind result_bind].
  destruct seats as [| |s|n]; try done.
  cbn [py_eq]. destruct (String.eqb_spec s "1") as [->|]; done.
Qed.

(** *** Lookups that fall back to [Other] *)

Lemma dict_getitem_raises d x e : dict_getitem d x = Raise e → e = KeyError.
Proof.
  unfold dict_getitem. destruct x; try congruence.
  destruct (list_find _ d) as [[? ?]|]; congruence.
Qed.

Lemma lookup_or_other_total (row : Series) label d :
  ∃ v, except_KeyError (getitem row label ≫= dict_getitem d) (Ok (Str "Other"))
       = Ok v.
Proof.
  unfold getitem. destruct (row !! label) as [x|]; cbn [mbind result_bind].
  - destruct (dict_getitem d x) as [v|e] eqn:E; [by exists v |].
    apply dict_getitem_raises in E as ->. by eexists.
  - by eexists.
Qed.

(** The condition and zip rules never raise; the carType rule raises only
    when the frame has no [Seats] column at all. *)
Lemma tolerant_rules (impl : script) (row : Series) :
  (∃ v, condition_rule impl row = Ok v)
  ∧ (∃ v, zip_rule impl row = Ok v)
  ∧ (is_Some (row !! "Seats") → ∃ v, cartype_rule impl row = Ok v).
Proof.
  split_and!.
  - destruct impl; apply lookup_or_other_total.
  - destruct impl; apply lookup_or_other_total.
  - intros [seats Hs]. destruct impl; simpl.
    + unfold onedot_solution.normalize_cartype, getitem. rewrite Hs. cbn [mbind result_bind].
      destruct (py_eq seats (Int 1)); [by eexists |].
      apply (lookup_or_other_total row "BodyTypeText").
    + unfold onedot_data_analyst_solution.norm_cartype, getitem. rewrite Hs. cbn [mbind result_bind].
      destruct (py_eq seats (Str "1")); [by eexists |].
      apply (lookup_or_other_total row "BodyTypeText").
Qed.

(** *** The variant rule on two texts *)

Lemma normalize_variant_texts lower (row : Series) m mt :
  row !! "ModelText" = Some (Str m) →
  row !! "ModelTypeText" = Some (Str mt) →
  onedot_solution.normalize_variant lower row
  = if String.eqb (lower (slice_to (len (strip m)) (strip mt))) (lower (strip m))
    then Ok (Str (strip (slice_from (len (strip m)) (strip mt))))
    else getitem row "TypeName".
Proof.
  intros Hm Hmt. unfold onedot_solution.normalize_variant, getitem. by rewrite Hm, Hmt.
Qed.

Lemma variant_rule_texts impl lower (row : Series) m mt :
  row !! "ModelText" = Some (Str m) →
  row !! "ModelTypeText" = Some (Str mt) →
  variant_rule impl lower row
  = if String.eqb (lower (slice_to (len (strip m)) (strip mt))) (lower (strip m))
    then Ok (Str (strip (slice_from (len (strip m)) (strip mt))))
    else getitem row "TypeName".
Proof. destruct impl; apply normalize_variant_texts. Qed.

(** Without a text in one of the two cells the rule raises. *)
Lemma normalize_variant_no_text lower (row : Series) x :
  row !! "ModelTypeText" = Some x → (∀ text, x ≠ Str text) →
  ∃ e, onedot_solution.normalize_variant lower row = Raise e.
Proof.
  intros Hx Hno. unfold onedot_solution.normalize_variant, getitem. rewrite Hx.
  destruct (row !! "ModelText") as [[| |m|n]|]; cbn [mbind result_bind py_strip];
    try by eexists.
  destruct x as [| |text|n]; cbn [mbind result_bind py_strip]; try by eexists.
  by destruct (Hno text).
Qed.

End RuleFacts.

(** ** Integration *)

Module IntegrateFacts.
Import RuleFacts.

(** [integrate] reads twelve cells before it builds the record. *)
Ltac run_integrate H :=
  do 12 (let v := fresh "v" in let Hv := fresh "Hv" in
         apply bind_Ok in H as (v & Hv & H); apply getitem_Ok in Hv);
  apply Ok_inj in H; rewrite <- H; clear H.

Ltac read_field label :=
  match goal with
  | E : _ !! label = Some _ |- _ => rewrite E
  end;
  vm_compute; reflexivity.

(** The first script copies the raw condition text. *)
Lemma integrate_condition_raw (row out : Series) :
  onedot_solution.integrate row = Ok out → out !! "condition" = row !! "ConditionTypeText".
Proof.
  intros H. unfold onedot_solution.integrate in H. run_integrate H.
  read_field "ConditionTypeText".
Qed.

(** The second script copies the column that [normalize] assigned. *)
Lemma integrate_condition_normalized (row out : Series) :
  onedot_data_analyst_solution.integrate row = Ok out → out !! "condition" = row !! "Condition".
Proof.
  intros H. unfold onedot_data_analyst_solution.integrate in H. run_integrate H.
  read_field "Condition".
Qed.

(** The unit is decided by the truth value of the consumption cell. *)
Lemma fuel_consumption_unit_value (impl : script) (row out : Series) c :
  integrate_of impl row = Ok out →
  row !! "ConsumptionTotalText" = Some c →
  out !! "fuel_consumption_unit"
  = Some (if truthy c && py_ne c (Str "null")
          then Str "l_km_consumption" else PyNone).
Proof.
  intros H Hc. destruct impl; simpl in H.
  - unfold onedot_solution.integrate in H. run_integrate H.
    match goal with E : row !! "ConsumptionTotalText" = Some ?v |- _ =>
      assert (v = c) as -> by congruence end.
    vm_compute. reflexivity.
  - unfold onedot_data_analyst_solution.integrate in H. run_integrate H.
    match goal with E : row !! "ConsumptionTotalText" = Some ?v |- _ =>
      assert (v = c) as -> by congruence end.
    vm_compute. reflexivity.
Qed.

(** On a text the unit is set exactly when the text is neither empty nor
    [null]; a JSON null gives no unit. *)
Lemma fuel_consumption_unit_text (impl : script) (row out : Series) c :
  integrate_of impl row = Ok out →
  row !! "ConsumptionTotalText" = Some c →
  (∀ text, c = Str text →
     (out !! "fuel_consumption_unit" = Some (Str "l_km_consumption")
      ↔ text ≠ EmptyString ∧ text ≠ "null")
     ∧ (text = EmptyString ∨ text = "null" →
        out !! "fuel_consumption_unit" = Some PyNone))
  ∧ (c = PyNone → out !! "fuel_consumption_unit" = Some PyNone)
  ∧ (c = NaN → out !! "fuel_consumption_unit" = Some (Str "l_km_consumption")).
Proof.
  intros H Hc. rewrite (fuel_consumption_unit_value impl row out c H Hc).
  split_and!.
  - intros text ->. unfold truthy, py_ne, py_eq.
    destruct (String.eqb_spec text EmptyString) as [->|Hne1]; simpl.
    + split; [split; [discriminate | intros [? _]; done] | done].
    + destruct (String.eqb_spec text "null") as [->|Hne2]; simpl.
      * split; [split; [discriminate | intros [_ ?]; done] | done].
      * split; [done | intros [?|?]; done].
  - by intros ->.
  - by intros ->.
Qed.

End IntegrateFacts.

(** ** Aggregation *)

Module AggregationFacts.
Import pandas.

Lemma sort_values_perm df : sort_values df ≡ₚ df.
Proof. apply merge_sort_Permutation. Qed.

Lemma length_DataFrame rows : length (DataFrame rows) = length rows.
Proof. unfold DataFrame. apply length_fmap. Qed.

Lemma remove_dups_perm (ks ks' : list key) :
  ks ≡ₚ ks' → remove_dups ks ≡ₚ remove_dups ks'.
Proof.
  intros Hp. apply NoDup_Permutation; [apply NoDup_remove_dups .. |].
  intros k. rewrite !elem_of_remove_dups. by rewrite Hp.
Qed.

Lemma fmap_id_ext {X} (f : X → X) (l : list X) : (∀ x, f x = x) → f <$> l = l.
Proof. intros Hf. induction l as [|x l IH]; [done |]. by rewrite fmap_cons, Hf, IH. Qed.

(** The keys of the grouped rows: each distinct key of the rows kept, once. *)
Lemma groupby_keys dropna df :
  agg_key <$> groupby_agg_list dropna df
  ≡ₚ remove_dups (key_of <$>
       (if dropna then filter (fun r => has_na (key_of r) = false) df else df)).
Proof.
  unfold groupby_agg_list. rewrite <- list_fmap_compose.
  rewrite fmap_id_ext by done.
  apply merge_sort_Permutation.
Qed.

Lemma key_of_filter_complete (df : list raw_row) :
  key_of <$> filter (fun r => has_na (key_of r) = false) df
  = filter (fun k => has_na k = false) (key_of <$> df).
Proof.
  induction df as [|r df IH]; [done |].
  rewrite fmap_cons, !filter_cons.
  destruct (decide (has_na (key_of r) = false)); [rewrite fmap_cons |]; by rewrite IH.
Qed.

(** With [dropna=False] there is one record for each distinct key tuple of
    the input. *)
Theorem df_grp_agg_attr_one_per_key df :
  agg_key <$> onedot_data_analyst_solution.df_grp df ≡ₚ remove_dups (key_of <$> df)
  ∧ length (onedot_data_analyst_solution.df_grp_agg_attr df) = length (remove_dups (key_of <$> df)).
Proof.
  assert (agg_key <$> onedot_data_analyst_solution.df_grp df ≡ₚ remove_dups (key_of <$> df)) as Hk.
  { unfold onedot_data_analyst_solution.df_grp. rewrite groupby_keys.
    apply remove_dups_perm. by rewrite sort_values_perm. }
  split; [done |].
  unfold onedot_data_analyst_solution.df_grp_agg_attr, onedot_data_analyst_solution.df_grp_agg.
  rewrite length_DataFrame, !length_fmap.
  rewrite <- (length_fmap agg_key). by rewrite Hk.
Qed.

(** With the default [dropna=True] only the key tuples without a missing
    value get a record. *)
Theorem agg_data_one_per_complete_key df :
  length (onedot_solution.agg_data df)
  = length (remove_dups (filter (fun k => has_na k = false) (key_of <$> df))).
Proof.
  unfold onedot_solution.agg_data. rewrite length_DataFrame, length_fmap.
  rewrite <- (length_fmap agg_key), groupby_keys.
  rewrite key_of_filter_complete.
  apply Permutation_length, remove_dups_perm.
  by rewrite sort_values_perm.
Qed.

Lemma filter_all {X} (P : X → Prop) `{!∀ x, Decision (P x)} (l : list X) :
  Forall P l → filter P l = l.
Proof.
  induction 1 as [|x l Hx Hl IH]; [done |].
  rewrite filter_cons. destruct (decide (P x)); [by rewrite IH | done].
Qed.

Lemma astype_str_complete row :
  has_na (agg_key row) = false → onedot_data_analyst_solution.ModelText_astype_str row = row.
Proof.
  destruct row as [[[[[[i mk] tn] tf] mo] mt] names values].
  unfold onedot_data_analyst_solution.ModelText_astype_str. simpl.
  destruct mo; [done |]. intros H. exfalso. revert H.
  rewrite !andb_false_r. done.
Qed.

(** On a catalog without a missing key field the two scripts aggregate
    alike. *)
Theorem aggregate_agree df :
  Forall (fun r => has_na (key_of r) = false) df →
  onedot_solution.agg_data df = onedot_data_analyst_solution.df_grp_agg_attr df.
Proof.
  intros Hdf.
  assert (Forall (fun r => has_na (key_of r) = false) (sort_values df)) as Hsorted.
  { by rewrite sort_values_perm. }
  assert (groupby_agg_list true (sort_values df)
          = groupby_agg_list false (sort_values df)) as Hg.
  { unfold groupby_agg_list. by rewrite filter_all. }
  unfold onedot_solution.agg_data, onedot_data_analyst_solution.df_grp_agg_attr, onedot_data_analyst_solution.df_grp_agg, onedot_data_analyst_solution.df_grp.
  f_equal. rewrite Hg, <- list_fmap_compose. apply list_fmap_ext.
  intros i row Hrow. simpl.
  rewrite astype_str_complete; [done |].
  apply list_elem_of_lookup_2 in Hrow.
  assert (agg_key row ∈ agg_key <$> groupby_agg_list false (sort_values df)) as Hkey.
  { by apply list_elem_of_fmap_2. }
  rewrite groupby_keys, elem_of_remove_dups in Hkey.
  apply list_elem_of_fmap in Hkey as (r & -> & Hr).
  by eapply Forall_forall in Hsorted.
Qed.

Lemma groupby_key_kept dropna df g :
  g ∈ groupby_agg_list dropna df →
  ∃ r, r ∈ df ∧ key_of r = agg_key g ∧ (dropna = true → has_na (agg_key g) = false).
Proof.
  intros Hg.
  assert (agg_key g ∈ agg_key <$> groupby_agg_list dropna df) as Hkey.
  { by apply list_elem_of_fmap_2. }
  rewrite groupby_keys, elem_of_remove_dups in Hkey.
  apply list_elem_of_fmap in Hkey as (r & Hr & Hin).
  exists r. destruct dropna.
  - apply list_elem_of_filter in Hin as [Hna Hin]. rewrite Hr. by split_and!.
  - by split_and!.
Qed.

Lemma constant_cell_kept (consts attr fill : Series) label v :
  consts !! label = Some v → (update attr consts ∪ fill) !! label = Some v.
Proof.
  intros H. unfold update. by apply lookup_union_Some_l, lookup_union_Some_l.
Qed.

(** The first script hands the variant rule two texts in every record. *)
Theorem agg_data_model_texts df record :
  record ∈ onedot_solution.agg_data df →
  ∃ m mt, record !! "ModelText" = Some (Str m)
        ∧ record !! "ModelTypeText" = Some (Str mt).
Proof.
  unfold onedot_solution.agg_data, DataFrame. intros H.
  apply list_elem_of_fmap in H as (row & -> & Hrow).
  apply list_elem_of_fmap in Hrow as (g & -> & Hg).
  apply groupby_key_kept in Hg as (_ & _ & _ & Hna). specialize (Hna eq_refl).
  destruct g as [[[[[[i mk] tn] tf] mo] mt] names values].
  unfold onedot_solution.aggregate_attributes. cbn [agg_key agg_names agg_values] in *.
  destruct mo as [m|]; [| exfalso; revert Hna; cbn; rewrite ?andb_false_r; done].
  destruct mt as [mt|]; [| exfalso; revert Hna; cbn; rewrite ?andb_false_r; done].
  exists m, mt. split; apply constant_cell_kept; vm_compute; reflexivity.
Qed.

(** The second script turns a missing model text into the text [nan], so
    the model text of every record is a text; the model-type text may still
    be missing. *)
Theorem df_grp_agg_attr_model_text df record :
  record ∈ onedot_data_analyst_solution.df_grp_agg_attr df →
  ∃ m, record !! "ModelText" = Some (Str m).
Proof.
  unfold onedot_data_analyst_solution.df_grp_agg_attr,
    onedot_data_analyst_solution.df_grp_agg, DataFrame. intros H.
  apply list_elem_of_fmap in H as (row & -> & Hrow).
  apply list_elem_of_fmap in Hrow as (g' & -> & Hg').
  apply list_elem_of_fmap in Hg' as (g & -> & _).
  destruct g as [[[[[[i mk] tn] tf] mo] mt] names values].
  unfold onedot_data_analyst_solution.aggr_attr,
    onedot_data_analyst_solution.ModelText_astype_str.
  cbn [agg_key agg_names agg_values].
  destruct mo as [m|]; eexists; apply constant_cell_kept; vm_compute; reflexivity.
Qed.

End AggregationFacts.

(** * The claims *)

Section Claims.
Import pandas PyStr PyStrFacts RuleFacts LoopFacts.

(** C1.  The integrated [condition] is meant to be the normalized condition.
    [onedot_data_analyst_solution.integrate] reads the column [Condition]
    that the normalizer assigned; [onedot_solution.integrate] reads
    [ConditionTypeText] instead.  On the catalog with one vehicle whose
    condition text is [Occasion] the normalized value is [Used], the second
    script exports [Used] and the first one exports [Occasion]. *)
Theorem integrate_condition_is_raw_text :
  cell (onedot_solution.normalized_data ascii_lower Samples.one_vehicle)
    0 "Condition" = Some (Str "Used")
  ∧ cell (onedot_solution.formated_data ascii_lower Samples.one_vehicle)
      0 "condition" = Some (Str "Occasion")
  ∧ cell (onedot_data_analyst_solution.integrated_df ascii_lower Samples.one_vehicle)
      0 "condition" = Some (Str "Used").
Proof. split_and!; vm_compute; reflexivity. Qed.

(** C2.  A missing or null input must not make a rule raise.  In the
    catalog [colour_missing] the second vehicle has no colour, so its cell is
    NaN: the colour rule of either script raises [TypeError] on that record
    and the whole normalization aborts; a JSON null in the cell does the
    same.  In the second script, which keeps groups with a missing key
    field, a missing model-type text makes the variant rule raise
    [AttributeError]. *)
Theorem rules_raise_on_missing_input (impl : script) :
  iloc (aggregate impl Samples.colour_missing) 1 "BodyColorText" = Some NaN
  ∧ color_rule impl <$> aggregate impl Samples.colour_missing !! 1%nat
    = Some (Raise TypeError)
  ∧ normalized_of impl ascii_lower Samples.colour_missing = Raise TypeError
  ∧ color_rule impl (<["BodyColorText" := PyNone]> Samples.one_record)
    = Raise TypeError
  ∧ iloc (aggregate DataAnalyst Samples.model_type_missing) 0 "ModelTypeText"
    = Some NaN
  ∧ variant_rule DataAnalyst ascii_lower
    <$> aggregate DataAnalyst Samples.model_type_missing !! 0%nat
    = Some (Raise AttributeError).
Proof. destruct impl; split_and!; vm_compute; reflexivity. Qed.

(** C3.  The unit is meant to be empty when the consumption text is absent.
    In the catalog [consumption_missing] the second vehicle has no
    consumption text, so its cell is NaN, which Python counts as true and
    as different from [null]: both scripts export [l_km_consumption]. *)
Theorem fuel_unit_set_on_missing_consumption (impl : script) :
  iloc (aggregate impl Samples.consumption_missing) 1 "ConsumptionTotalText"
  = Some NaN
  ∧ cell (integrated_of impl ascii_lower Samples.consumption_missing)
      1 "fuel_consumption_unit" = Some (Str "l_km_consumption").
Proof. destruct impl; split; vm_compute; reflexivity. Qed.

(** C4.  Every distinct key tuple is meant to get a record, also one with a
    missing model text.  The rows of [model_missing] share one key tuple,
    whose model text is missing: [onedot_solution.agg_data] returns no
    record for it, [onedot_data_analyst_solution.df_grp_agg_attr] returns
    one. *)
Theorem agg_data_drops_missing_model_text :
  remove_dups (key_of <$> Samples.model_missing)
  = [(Some 7, Some "Audi", Some "A4 Avant 2.0", Some "Audi A4 Avant 2.0",
      None, Some "A4 Avant")]
  ∧ onedot_solution.agg_data Samples.model_missing = []
  ∧ length (onedot_data_analyst_solution.df_grp_agg_attr Samples.model_missing)
    = 1%nat.
Proof. split_and!; vm_compute; reflexivity. Qed.

Lemma one_vehicle_cells :
  cell (onedot_solution.normalized_data ascii_lower Samples.one_vehicle)
    0 "BodyTypeText" = Some (Str "Saloon")
  ∧ cell (onedot_data_analyst_solution.normalized_df ascii_lower Samples.one_vehicle)
      0 "BodyTypeText" = Some (Str "Single seater")
  ∧ cell (onedot_solution.formated_data ascii_lower Samples.one_vehicle)
      0 "carType" = Some (Str "Saloon")
  ∧ cell (onedot_data_analyst_solution.integrated_df ascii_lower Samples.one_vehicle)
      0 "carType" = Some (Str "Single seater").
Proof. split_and!; vm_compute; reflexivity. Qed.

(** C5.  The two scripts are not extensionally equal.  On the catalog with
    one fully described vehicle they aggregate alike, but the normalized and
    the integrated collections differ, in carType and in condition; on a
    catalog whose model text is missing already the aggregated collections
    differ. *)
Theorem scripts_differ :
  onedot_solution.agg_data Samples.one_vehicle
  = onedot_data_analyst_solution.df_grp_agg_attr Samples.one_vehicle
  ∧ onedot_solution.normalized_data ascii_lower Samples.one_vehicle
    ≠ onedot_data_analyst_solution.normalized_df ascii_lower Samples.one_vehicle
  ∧ onedot_solution.formated_data ascii_lower Samples.one_vehicle
    ≠ onedot_data_analyst_solution.integrated_df ascii_lower Samples.one_vehicle
  ∧ onedot_solution.agg_data Samples.model_missing
    ≠ onedot_data_analyst_solution.df_grp_agg_attr Samples.model_missing.
Proof.
  destruct one_vehicle_cells as (Ha & Hb & Hc & Hd).
  split_and!.
  - apply AggregationFacts.aggregate_agree. by repeat constructor.
  - intros H. rewrite H in Ha. congruence.
  - intros H. rewrite H in Hc. congruence.
  - intros H. apply (f_equal length) in H. revert H.
    vm_compute. discriminate.
Qed.

Lemma one_record_aggregated (impl : script) :
  aggregate impl Samples.one_vehicle = [Samples.one_record].
Proof.
  destruct impl;
    match goal with
    | |- ?P => apply (bool_decide_eq_true_1 P); vm_compute; reflexivity
    end.
Qed.

(** C6.  A seat count of 1 is meant to give [Single seater].  The
    aggregated record of [one_vehicle] carries the seat count as the text
    [1], as the attribute values of the catalog are texts:
    [onedot_solution.normalize_cartype] compares the cell with the integer 1
    and returns the table image [Saloon] of the body type, while
    [onedot_data_analyst_solution.norm_cartype] compares with the text and
    returns [Single seater].  With the integer 1 in the cell of such a
    record it is the other way round. *)
Theorem cartype_ignores_text_seat_count :
  onedot_solution.agg_data Samples.one_vehicle = [Samples.one_record]
  ∧ onedot_data_analyst_solution.df_grp_agg_attr Samples.one_vehicle
    = [Samples.one_record]
  ∧ Samples.one_record !! "Seats" = Some (Str "1")
  ∧ Samples.one_record !! "BodyTypeText" = Some (Str "Limousine")
  ∧ onedot_solution.normalize_cartype Samples.one_record = Ok (Str "Saloon")
  ∧ onedot_data_analyst_solution.norm_cartype Samples.one_record
    = Ok (Str "Single seater")
  ∧ onedot_solution.normalize_cartype (<["Seats" := Int 1]> Samples.one_record)
    = Ok (Str "Single seater")
  ∧ onedot_data_analyst_solution.norm_cartype
      (<["Seats" := Int 1]> Samples.one_record) = Ok (Str "Saloon").
Proof.
  pose proof (one_record_aggregated Solution).
  pose proof (one_record_aggregated DataAnalyst).
  split_and!; try done; vm_compute; reflexivity.
Qed.

Lemma color_rule_eq impl row : color_rule impl row = onedot_solution.normalize_color row.
Proof. destruct impl; [done | apply norm_color_eq]. Qed.

Lemma color_table_of_eq impl : color_table_of impl = onedot_solution.color_table.
Proof. by destruct impl. Qed.

(** C7.  On a row whose colour cell is a text, the colour rule of either
    script returns the English name of the first pair of the table one of
    whose German words occurs in the text, and [Other] when no word of the
    table occurs; [schwarz metallic] gives [Black] and [xyz] gives
    [Other]. *)
Theorem color_first_match (impl : script) (row : Series) (text : string) :
  row !! "BodyColorText" = Some (Str text) →
  (∀ earlier english germans later,
     color_table_of impl = (earlier ++ (english, germans) :: later)%list →
     (∃ german, german ∈ germans ∧ occurs german text) →
     (∀ pair german, pair ∈ earlier → german ∈ pair.2 → ¬ occurs german text) →
     color_rule impl row = Ok (Str english))
  ∧ ((∀ pair german,
        pair ∈ color_table_of impl → german ∈ pair.2 → ¬ occurs german text) →
     color_rule impl row = Ok (Str "Other"))
  ∧ (text = "schwarz metallic" → color_rule impl row = Ok (Str "Black"))
  ∧ (text = "xyz" → color_rule impl row = Ok (Str "Other")).
Proof.
  intros Hrow. rewrite color_rule_eq, color_table_of_eq. split_and!.
  - intros earlier english germans later Htable Hhit Hno.
    unfold onedot_solution.normalize_color. rewrite Htable.
    by apply (color_pairs_first row text).
  - intros Hno. by apply (color_pairs_none row text).
  - intros ->.
    rewrite (normalize_color_reads row {["BodyColorText" := Str "schwarz metallic"]}).
    + vm_compute. reflexivity.
    + by rewrite Hrow, lookup_singleton_eq.
  - intros ->.
    rewrite (normalize_color_reads row {["BodyColorText" := Str "xyz"]}).
    + vm_compute. reflexivity.
    + by rewrite Hrow, lookup_singleton_eq.
Qed.

(** Containment is case-sensitive, and an earlier pair wins over a later
    one. *)
Lemma color_examples (impl : script) :
  color_rule impl {["BodyColorText" := Str "Schwarz"]} = Ok (Str "Other")
  ∧ color_rule impl {["BodyColorText" := Str "blaugrau"]} = Ok (Str "Blue")
  ∧ color_rule impl {["BodyColorText" := Str "dunkelgrün mét."]} = Ok (Str "Green").
Proof. destruct impl; split_and!; vm_compute; reflexivity. Qed.

Lemma color_first_match_witness :
  Samples.one_record !! "BodyColorText" = Some (Str "schwarz metallic")
  ∧ color_rule DataAnalyst Samples.one_record = Ok (Str "Black").
Proof.
  split; [vm_compute; reflexivity |].
  destruct (color_first_match DataAnalyst Samples.one_record "schwarz metallic")
    as (_ & _ & Hblack & _); [vm_compute; reflexivity |].
  exact (Hblack eq_refl).
Defined.

(** C8.  Every aggregated record is meant to get a variant: the stripped
    remainder of the model-type text after the model text, or the cell
    [TypeName].  The second script keeps the vehicle of
    [model_type_missing], whose model-type text is missing, and stores NaN
    in the cell; its variant rule calls [strip] on that cell and raises
    [AttributeError], whatever the case mapping, so the record gets no
    variant and the normalization of the collection aborts.  The first
    script has no record for that vehicle.  With the model-type text in
    place the record of the second script gets the remainder [Avant]. *)
Theorem variant_rule_raises_on_missing_model_type (lower : string → string) :
  iloc (aggregate DataAnalyst Samples.model_type_missing) 0 "ModelText"
  = Some (Str "A4")
  ∧ iloc (aggregate DataAnalyst Samples.model_type_missing) 0 "ModelTypeText"
    = Some NaN
  ∧ iloc (aggregate DataAnalyst Samples.model_type_missing) 0 "TypeName"
    = Some (Str "A4 Avant 2.0")
  ∧ variant_rule DataAnalyst lower
    <$> aggregate DataAnalyst Samples.model_type_missing !! 0%nat
    = Some (Raise AttributeError)
  ∧ normalized_of DataAnalyst lower Samples.model_type_missing
    = Raise AttributeError
  ∧ integrated_of DataAnalyst lower Samples.model_type_missing
    = Raise AttributeError
  ∧ aggregate Solution Samples.model_type_missing = []
  ∧ variant_rule DataAnalyst ascii_lower
    <$> aggregate DataAnalyst Samples.one_vehicle !! 0%nat
    = Some (Ok (Str "Avant")).
Proof. split_and!; vm_compute; reflexivity. Qed.

(** Letters of the two texts may differ in case. *)
Lemma variant_mixed_case (impl : script) :
  variant_rule impl ascii_lower (Samples.variant_row " a4" "A4 AVANT " "A4")
  = Ok (Str "AVANT")
  ∧ variant_rule impl ascii_lower (Samples.variant_row "A4" "a4avant" "A4")
    = Ok (Str "avant").
Proof. destruct impl; split; vm_compute; reflexivity. Qed.

(** The two variant examples of the specification, for both scripts. *)
Lemma variant_examples (impl : script) :
  variant_rule impl ascii_lower (Samples.variant_row "A4" "A4 Avant" "A4")
  = Ok (Str "Avant")
  ∧ variant_rule impl ascii_lower
      (Samples.variant_row "A4" "Q5 Sportback" "Q5 Sportback 45")
    = Ok (Str "Q5 Sportback 45").
Proof. destruct impl; split; vm_compute; reflexivity. Qed.

(** C9.  The five rules of either script are independent, so the order of
    the loop does not matter: for every reordering of the five (column,
    rule) pairs, running the loop on a row either raises in both orders or
    returns the same row in both; and the value a rule computes does not
    change when another rule's column is assigned first. *)
Theorem normalize_order_insensitive (impl : script) (lower : string → string)
    (rules : list (string * (Series → result pyval))) (row : Series) :
  rules ≡ₚ rules_of impl lower →
  outcome (assign_each rules row) = outcome (normalize_of impl lower row)
  ∧ ∀ x y, x ∈ rules → y ∈ rules → x.1 ≠ y.1 →
      ∀ (r : Series) v, x.2 (<[y.1 := v]> r) = x.2 r.
Proof.
  intros Hp.
  assert (independent (rules_of impl lower)) as Hind.
  { destruct impl; [apply NORM_FUNCTIONS_independent | apply NORM_FUNCT_independent]. }
  symmetry in Hp. split.
  - transitivity (outcome (assign_each (rules_of impl lower) row)).
    + symmetry. by apply assign_each_perm.
    + by destruct impl.
  - by destruct (independent_perm _ _ Hp Hind).
Qed.

Lemma normalize_order_insensitive_witness :
  reverse (rules_of Solution ascii_lower) ≡ₚ rules_of Solution ascii_lower
  ∧ outcome (assign_each (reverse (rules_of Solution ascii_lower)) Samples.one_record)
    = outcome (normalize_of Solution ascii_lower Samples.one_record).
Proof.
  split; [apply reverse_Permutation |].
  apply (normalize_order_insensitive Solution ascii_lower), reverse_Permutation.
Defined.



End Claims.

(** * Further properties of the two scripts *)

(** ** Dict lookups with a fallback *)

Module LookupFacts.
Import RuleFacts.

Lemma dict_getitem_cons k v d s :
  dict_getitem ((k, v) :: d) (Str s)
  = if decide (k = s) then Ok (Str v) else dict_getitem d (Str s).
Proof.
  unfold dict_getitem. cbn [list_find]. simpl.
  destruct (decide (k = s)); [done |].
  by destruct (list_find _ d) as [[i kv]|].
Qed.

Lemma dict_getitem_miss d s : s ∉ d.*1 → dict_getitem d (Str s) = Raise KeyError.
Proof.
  induction d as [|[k v] d IH]; [done |].
  rewrite fmap_cons, not_elem_of_cons. intros [Hne Hnot].
  rewrite dict_getitem_cons. destruct (decide (k = s)); [by subst | by apply IH].
Qed.

Lemma dict_getitem_hit d k v :
  NoDup d.*1 → (k, v) ∈ d → dict_getitem d (Str k) = Ok (Str v).
Proof.
  induction d as [|[k' v'] d IH]; [by intros _ ?%elem_of_nil |].
  rewrite fmap_cons, NoDup_cons. intros [Hnot Hnd] Hin.
  rewrite dict_getitem_cons. apply elem_of_cons in Hin as [[= -> ->]|Hin].
  - by rewrite decide_True.
  - rewrite decide_False; [by apply IH |].
    intros ->. apply Hnot. by apply (list_elem_of_fmap_2 fst) in Hin.
Qed.

Lemma dict_getitem_Ok d x y :
  dict_getitem d x = Ok y → ∃ k v, x = Str k ∧ y = Str v ∧ (k, v) ∈ d.
Proof.
  destruct x as [| |s|n]; try done.
  induction d as [|[k v] d IH]; [done |].
  rewrite dict_getitem_cons. destruct (decide (k = s)) as [->|Hne].
  - intros [= <-]. exists s, v. split_and!; [done | done | by left].
  - intros H. destruct (IH H) as (k' & v' & Hx & Hy & Hin).
    exists k', v'. split_and!; [done | done | by right].
Qed.

(** [try: return d[row[label]] except KeyError: return "Other"] on a key
    of the table, off the table, and what it can return. *)
Lemma lookup_rule_hit (row : Series) label d k v :
  NoDup d.*1 → (k, v) ∈ d → row !! label = Some (Str k) →
  except_KeyError (getitem row label ≫= dict_getitem d) (Ok (Str "Other"))
  = Ok (Str v).
Proof.
  intros Hnd Hin Hrow. unfold getitem. rewrite Hrow. cbn [mbind result_bind].
  by rewrite (dict_getitem_hit d k v).
Qed.

Lemma lookup_rule_miss (row : Series) label d :
  (∀ k, row !! label = Some (Str k) → k ∉ d.*1) →
  except_KeyError (getitem row label ≫= dict_getitem d) (Ok (Str "Other"))
  = Ok (Str "Other").
Proof.
  intros Hmiss. unfold getitem.
  destruct (row !! label) as [[| |k|n]|]; cbn [mbind result_bind]; try done.
  by rewrite dict_getitem_miss by (by apply Hmiss).
Qed.

Lemma lookup_rule_range (row : Series) label d y :
  except_KeyError (getitem row label ≫= dict_getitem d) (Ok (Str "Other")) = Ok y →
  y = Str "Other"
  ∨ ∃ k v, (k, v) ∈ d ∧ y = Str v ∧ row !! label = Some (Str k).
Proof.
  unfold getitem. destruct (row !! label) as [x|]; cbn [mbind result_bind].
  - destruct (dict_getitem d x) as [y'|e] eqn:E.
    + intros [= <-]. right.
      apply dict_getitem_Ok in E as (k & v & -> & -> & Hin). by exists k, v.
    + apply dict_getitem_raises in E as ->. intros [= <-]. by left.
  - intros [= <-]. by left.
Qed.

End LookupFacts.

(** ** The rules one by one *)

Section RuleProperties.
Import PyStr PyStrFacts RuleFacts LookupFacts.

(** X1.  The zip rule of either script is an exact-match lookup of the city
    in its table that never raises: a city of the table gives its code;
    anything else, be it another text, a cell that is no text or a row
    without the column [City], gives [Other]; nothing but [Other] and the
    six codes is ever returned. *)
Theorem zip_rule_lookup (impl : script) (row : Series) :
  onedot_data_analyst_solution.zip_table = onedot_solution.zip_table
  ∧ (∀ city code,
       (city, code) ∈ onedot_solution.zip_table →
       row !! "City" = Some (Str city) → zip_rule impl row = Ok (Str code))
  ∧ ((∀ city, row !! "City" = Some (Str city) →
               city ∉ onedot_solution.zip_table.*1) →
     zip_rule impl row = Ok (Str "Other"))
  ∧ ∃ code, zip_rule impl row = Ok (Str code)
            ∧ code ∈ "Other" :: onedot_solution.zip_table.*2.
Proof.
  assert (zip_rule impl row
          = except_KeyError
              (getitem row "City" ≫= dict_getitem onedot_solution.zip_table)
              (Ok (Str "Other"))) as -> by (by destruct impl).
  split_and!; [done | | |].
  - intros city code Hin Hrow.
    apply (lookup_rule_hit row "City" _ city code); [compute_done | done..].
  - apply lookup_rule_miss.
  - destruct (lookup_or_other_total row "City" onedot_solution.zip_table) as [y Hy].
    rewrite Hy. apply lookup_rule_range in Hy as [->|(k & v & Hin & -> & _)].
    + exists "Other". split; [done | by left].
    + exists v. split; [done |]. right. by apply (list_elem_of_fmap_2 snd) in Hin.
Qed.

(** X2.  The condition rule of either script is an exact-match lookup of the
    condition text that never raises: a text of the table gives its English
    name; anything else, a missing cell or column included, gives [Other];
    nothing but [Other] and the four names is ever returned. *)
Theorem condition_rule_lookup (impl : script) (row : Series) :
  onedot_data_analyst_solution.condition_table = onedot_solution.condition_table
  ∧ (∀ german english,
       (german, english) ∈ onedot_solution.condition_table →
       row !! "ConditionTypeText" = Some (Str german) →
       condition_rule impl row = Ok (Str english))
  ∧ ((∀ german, row !! "ConditionTypeText" = Some (Str german) →
                 german ∉ onedot_solution.condition_table.*1) →
     condition_rule impl row = Ok (Str "Other"))
  ∧ ∃ english, condition_rule impl row = Ok (Str english)
               ∧ english ∈ "Other" :: onedot_solution.condition_table.*2.
Proof.
  assert (condition_rule impl row
          = except_KeyError
              (getitem row "ConditionTypeText"
               ≫= dict_getitem onedot_solution.condition_table)
              (Ok (Str "Other"))) as -> by (by destruct impl).
  split_and!; [done | | |].
  - intros german english Hin Hrow.
    apply (lookup_rule_hit row "ConditionTypeText" _ german english);
      [compute_done | done..].
  - apply lookup_rule_miss.
  - destruct (lookup_or_other_total row "ConditionTypeText"
                onedot_solution.condition_table) as [y Hy].
    rewrite Hy. apply lookup_rule_range in Hy as [->|(k & v & Hin & -> & _)].
    + exists "Other". split; [done | by left].
    + exists v. split; [done |]. right. by apply (list_elem_of_fmap_2 snd) in Hin.
Qed.

(** The value of the seat cell that makes a single seater: the integer 1 in
    the first script, the text [1] in the second. *)
Lemma cartype_rule_unfold (impl : script) (row : Series) :
  cartype_rule impl row
  = (seats ← getitem row "Seats";
     if py_eq seats (if impl is Solution then Int 1 else Str "1")
     then Ok (Str "Single seater")
     else except_KeyError
            (getitem row "BodyTypeText" ≫= dict_getitem onedot_solution.cartype_table)
            (Ok (Str "Other"))).
Proof. by destruct impl. Qed.

Lemma py_eq_spec_single (impl : script) seats :
  py_eq seats (if impl is Solution then Int 1 else Str "1") = true
  ↔ seats = (if impl is Solution then Int 1 else Str "1").
Proof.
  destruct impl, seats as [| |s|n]; simpl; try (split; done).
  - rewrite Z.eqb_eq. split; congruence.
  - rewrite String.eqb_eq. split; congruence.
Qed.

(** X3.  The carType rule of either script raises [KeyError] exactly when
    the row has no [Seats] column.  Otherwise it returns [Single seater]
    when the seat cell equals 1 (the integer in the first script, the text
    in the second), whatever the body type; else the table image of the body
    type text, or [Other] when that cell is no text of the table or is
    missing.  Nothing outside these seven names is ever returned. *)
Theorem cartype_rule_cases (impl : script) (row : Series) :
  (cartype_rule impl row = Raise KeyError ↔ row !! "Seats" = None)
  ∧ (row !! "Seats" = Some (if impl is Solution then Int 1 else Str "1") →
     cartype_rule impl row = Ok (Str "Single seater"))
  ∧ (∀ seats,
       row !! "Seats" = Some seats →
       seats ≠ (if impl is Solution then Int 1 else Str "1") →
       (∀ body image,
          (body, image) ∈ onedot_solution.cartype_table →
          row !! "BodyTypeText" = Some (Str body) →
          cartype_rule impl row = Ok (Str image))
       ∧ ((∀ body, row !! "BodyTypeText" = Some (Str body) →
                   body ∉ onedot_solution.cartype_table.*1) →
          cartype_rule impl row = Ok (Str "Other")))
  ∧ (∀ v, cartype_rule impl row = Ok v →
       ∃ name, v = Str name
         ∧ name ∈ "Single seater" :: "Other" :: onedot_solution.cartype_table.*2)
  ∧ (∀ e, cartype_rule impl row = Raise e → e = KeyError).
Proof.
  rewrite cartype_rule_unfold.
  destruct (row !! "Seats") as [seats|] eqn:Hseats.
  - rewrite (proj2 (getitem_Ok row "Seats" seats) Hseats). cbn [mbind result_bind].
    destruct (py_eq seats _) eqn:Heq.
    + apply py_eq_spec_single in Heq. split_and!; try done.
      * intros seats' [= <-] Hne. done.
      * intros v [= <-]. exists "Single seater". split; [done | by left].
    + assert (seats ≠ (if impl is Solution then Int 1 else Str "1")) as Hne.
      { intros H. apply py_eq_spec_single in H. congruence. }
      destruct (lookup_or_other_total row "BodyTypeText"
                  onedot_solution.cartype_table) as [y Hy].
      split_and!.
      * by rewrite Hy.
      * intros [= ->]. done.
      * intros seats' [= <-] _. split.
        -- intros body image Hin Hbody.
           apply (lookup_rule_hit row "BodyTypeText" _ body image);
             [compute_done | done..].
        -- apply lookup_rule_miss.
      * intros v Hv. apply lookup_rule_range in Hv as [->|(k & name & Hin & -> & _)].
        -- exists "Other". split; [done |]. right. by left.
        -- exists name. split; [done |]. do 2 right.
           by apply (list_elem_of_fmap_2 snd) in Hin.
      * by rewrite Hy.
  - assert (getitem row "Seats" = Raise KeyError) as ->.
    { unfold getitem. by rewrite Hseats. }
    cbn [mbind result_bind]. split_and!; try done. by intros e [= <-].
Qed.

Lemma color_pairs_vocabulary (row : Series) text pairs :
  row !! "BodyColorText" = Some (Str text) →
  ∃ english, onedot_solution.color_pairs row pairs = Ok (Str english)
             ∧ english ∈ "Other" :: pairs.*1.
Proof.
  intros Hrow. induction pairs as [|[english germans] rest (e & He & Hin)].
  - exists "Other". split; [done | by left].
  - rewrite (color_pairs_text row text) by done.
    destruct (existsb _ germans).
    + exists english. split; [done |]. right. by left.
    + exists e. split; [done |].
      apply elem_of_cons in Hin as [->|Hin]; [by left |]. by do 2 right.
Qed.

(** X4.  The colour rule of either script returns a value exactly when the
    colour cell is a text, and then one of the thirteen English names or
    [Other].  Without the column [BodyColorText] it raises [KeyError]; on a
    cell that is no text (a missing value, a null, a number) it raises
    [TypeError]. *)
Theorem color_rule_errors (impl : script) (row : Series) :
  (row !! "BodyColorText" = None → color_rule impl row = Raise KeyError)
  ∧ (∀ x, row !! "BodyColorText" = Some x → (∀ text, x ≠ Str text) →
       color_rule impl row = Raise TypeError)
  ∧ (∀ text, row !! "BodyColorText" = Some (Str text) →
       ∃ english, color_rule impl row = Ok (Str english)
                  ∧ english ∈ "Other" :: (color_table_of impl).*1).
Proof.
  rewrite color_rule_eq, color_table_of_eq. split_and!.
  - intros Hrow. rewrite normalize_color_no_text; rewrite Hrow; done.
  - intros x Hrow Hno. rewrite normalize_color_no_text; rewrite Hrow; [done |].
    intros text [= ->]. by destruct (Hno text).
  - intros text Hrow. by apply (color_pairs_vocabulary row text).
Qed.

Lemma normalize_variant_unfold (impl : script) lower (row : Series) :
  variant_rule impl lower row = onedot_solution.normalize_variant lower row.
Proof. by destruct impl. Qed.

(** X5.  The variant rule of either script reads the model text first: a
    row without the column [ModelText] gives [KeyError], a model text that
    is no text gives [AttributeError]; then the same holds for
    [ModelTypeText].  With two texts the rule raises only in the fallback,
    and only [KeyError], when the row has no [TypeName] column; with that
    column present it always returns. *)
Theorem variant_rule_errors (impl : script) (lower : string → string)
    (row : Series) :
  (row !! "ModelText" = None → variant_rule impl lower row = Raise KeyError)
  ∧ (∀ x, row !! "ModelText" = Some x → (∀ text, x ≠ Str text) →
       variant_rule impl lower row = Raise AttributeError)
  ∧ (∀ m, row !! "ModelText" = Some (Str m) →
       (row !! "ModelTypeText" = None →
        variant_rule impl lower row = Raise KeyError)
       ∧ (∀ x, row !! "ModelTypeText" = Some x → (∀ text, x ≠ Str text) →
            variant_rule impl lower row = Raise AttributeError)
       ∧ (∀ mt, row !! "ModelTypeText" = Some (Str mt) →
            (is_Some (row !! "TypeName") →
             ∃ v, variant_rule impl lower row = Ok v)
            ∧ (∀ e, variant_rule impl lower row = Raise e →
                 e = KeyError ∧ row !! "TypeName" = None))).
Proof.
  rewrite normalize_variant_unfold. unfold onedot_solution.normalize_variant.
  split_and!.
  - intros Hm. unfold getitem. by rewrite Hm.
  - intros x Hm Hno. unfold getitem. rewrite Hm.
    destruct x as [| |text|n]; try done. by destruct (Hno text).
  - intros m Hm. rewrite (proj2 (getitem_Ok row "ModelText" _) Hm).
    cbn [mbind result_bind py_strip].
    split_and!.
    + intros Hmt. unfold getitem. by rewrite Hmt.
    + intros x Hmt Hno. unfold getitem. rewrite Hmt.
      destruct x as [| |text|n]; try done. by destruct (Hno text).
    + intros mt Hmt. rewrite (proj2 (getitem_Ok row "ModelTypeText" _) Hmt).
      cbn [mbind result_bind py_strip].
      destruct (String.eqb _ _).
      * split; [by eexists | done].
      * unfold getitem. destruct (row !! "TypeName") as [v|].
        -- split; [by eexists | done].
        -- split; [by intros [? ?] | by intros e [= <-]].
Qed.

(** X6.  The two scripts have the same colour, condition, variant and zip
    rules, and their carType rules return the same on a row exactly when
    its seat cell is neither the integer 1 nor the text [1]. *)
Theorem rules_agree (lower : string → string) (row : Series) :
  onedot_data_analyst_solution.norm_color row = onedot_solution.normalize_color row
  ∧ onedot_data_analyst_solution.norm_condition row
    = onedot_solution.normalize_condition row
  ∧ onedot_data_analyst_solution.norm_variant lower row
    = onedot_solution.normalize_variant lower row
  ∧ onedot_data_analyst_solution.norm_zip row = onedot_solution.normalize_zip row
  ∧ (onedot_data_analyst_solution.norm_cartype row
     = onedot_solution.normalize_cartype row
     ↔ row !! "Seats" ≠ Some (Int 1) ∧ row !! "Seats" ≠ Some (Str "1")).
Proof.
  split_and!; [apply norm_color_eq | done | done | done |].
  split; [| intros [H1 H2]; by apply norm_cartype_eq].
  intros Heq. split; intros Hseats.
  - destruct (cartype_rule_cases Solution row) as (_ & Hsingle & _).
    destruct (cartype_rule_cases DataAnalyst row) as (_ & _ & Htable & Hrange & _).
    simpl in *. rewrite (Hsingle Hseats) in Heq.
    unfold onedot_data_analyst_solution.norm_cartype, getitem in Heq.
    rewrite Hseats in Heq. cbn [mbind result_bind py_eq] in Heq.
    apply lookup_rule_range in Heq as [[=]|(k & v & Hin & [= <-] & _)].
    unfold onedot_solution.cartype_table in Hin.
    repeat (apply elem_of_cons in Hin as [[=]|Hin]). by apply elem_of_nil in Hin.
  - destruct (cartype_rule_cases DataAnalyst row) as (_ & Hsingle & _).
    simpl in *. rewrite (Hsingle Hseats) in Heq. symmetry in Heq.
    unfold onedot_solution.normalize_cartype, getitem in Heq.
    rewrite Hseats in Heq. cbn [mbind result_bind py_eq] in Heq.
    apply lookup_rule_range in Heq as [[=]|(k & v & Hin & [= <-] & _)].
    unfold onedot_solution.cartype_table in Hin.
    repeat (apply elem_of_cons in Hin as [[=]|Hin]). by apply elem_of_nil in Hin.
Qed.

End RuleProperties.

(** ** The normalizer *)

Section NormalizeProperties.
Import PyStr PyStrFacts RuleFacts LookupFacts.

Lemma outcome_Some {X} (r : result X) x : outcome r = Some x → r = Ok x.
Proof. destruct r; simpl; congruence. Qed.

(** Independent rules can all be evaluated on the incoming row. *)
Lemma assign_each_parallel items (row0 : Series) :
  independent items →
  ∀ row, (∀ it, it ∈ items → it.2 row = it.2 row0) →
    assign_each items row
    = (vs ← apply_rows (λ it, it.2 row0) items;
       Ok (foldl (λ r cv, <[cv.1 := cv.2]> r) row (zip items.*1 vs))).
Proof.
  induction items as [|[column funct] items IH]; intros Hind row Hrow; [done |].
  cbn [assign_each apply_rows snd].
  assert (funct row = funct row0) as -> by (apply (Hrow (column, funct)); by left).
  destruct (funct row0) as [v|e]; [|done]. cbn [mbind result_bind].
  rewrite (IH (LoopFacts.independent_cons _ _ Hind) (<[column := v]> row)).
  - by destruct (apply_rows _ items).
  - intros it Hit. rewrite <- (Hrow it) by (by right).
    destruct Hind as [Hnd Hind]. apply (Hind it (column, funct)); [by right | by left |].
    cbn [fst]. intros Heq. apply NoDup_cons in Hnd as [Hnot _].
    apply Hnot. rewrite <- Heq. by apply (list_elem_of_fmap_2 fst) in Hit.
Qed.

(** The loop of [normalize], with every rule evaluated on the incoming row. *)
Lemma normalize_unfold (impl : script) (lower : string → string)
    (row : Series) :
  normalize_of impl lower row
  = (car_type ← cartype_rule impl row;
     color ← color_rule impl row;
     condition ← condition_rule impl row;
     variant ← variant_rule impl lower row;
     zip_code ← zip_rule impl row;
     Ok (<["Zip" := zip_code]> (<["Variant" := variant]>
        (<["Condition" := condition]> (<["BodyColorText" := color]>
        (<["BodyTypeText" := car_type]> row)))))).
Proof.
  assert (normalize_of impl lower row = assign_each (rules_of impl lower) row)
    as -> by (by destruct impl).
  rewrite (assign_each_parallel _ row); [| | done].
  - destruct impl; cbn [rules_of apply_rows snd cartype_rule color_rule
                         condition_rule variant_rule zip_rule];
      unfold onedot_solution.NORM_FUNCTIONS, onedot_data_analyst_solution.NORM_FUNCT;
      cbn [apply_rows snd].
    + destruct (onedot_solution.normalize_cartype row); [|done].
      destruct (onedot_solution.normalize_color row); [|done].
      destruct (onedot_solution.normalize_condition row); [|done].
      destruct (onedot_solution.normalize_variant lower row); [|done].
      by destruct (onedot_solution.normalize_zip row).
    + destruct (onedot_data_analyst_solution.norm_cartype row); [|done].
      destruct (onedot_data_analyst_solution.norm_color row); [|done].
      destruct (onedot_data_analyst_solution.norm_condition row); [|done].
      destruct (onedot_data_analyst_solution.norm_variant lower row); [|done].
      by destruct (onedot_data_analyst_solution.norm_zip row).
  - destruct impl; [apply NORM_FUNCTIONS_independent | apply NORM_FUNCT_independent].
Qed.

(** X7.  [normalize] runs the five rules one after the other on a row that
    it updates as it goes, yet every rule sees what it would see on the row
    as it came in: the result is that of evaluating the five rules on the
    incoming row and then storing the five values.  So [normalize] raises
    exactly when one of the rules raises on the incoming row, with the
    exception of the first such rule in the order carType, colour,
    condition, variant, zip. *)
Theorem normalize_on_incoming_row (impl : script) (lower : string → string)
    (row : Series) :
  normalize_of impl lower row
  = (car_type ← cartype_rule impl row;
     color ← color_rule impl row;
     condition ← condition_rule impl row;
     variant ← variant_rule impl lower row;
     zip_code ← zip_rule impl row;
     Ok (<["Zip" := zip_code]> (<["Variant" := variant]>
        (<["Condition" := condition]> (<["BodyColorText" := color]>
        (<["BodyTypeText" := car_type]> row)))))).
Proof. apply normalize_unfold. Qed.

(** X8.  When [normalize] returns, the row it returns has the columns of
    the incoming row and the five columns [BodyTypeText], [BodyColorText],
    [Condition], [Variant] and [Zip]; every other column holds the cell it
    held before. *)
Theorem normalize_other_columns (impl : script) (lower : string → string)
    (row row' : Series) :
  normalize_of impl lower row = Ok row' →
  dom row' = dom row ∪ {["BodyTypeText"; "BodyColorText"; "Condition"; "Variant"; "Zip"]}
  ∧ ∀ label,
      label ∉ ["BodyTypeText"; "BodyColorText"; "Condition"; "Variant"; "Zip"] →
      row' !! label = row !! label.
Proof.
  rewrite normalize_unfold. intros H.
  apply bind_Ok in H as (v1 & _ & H). apply bind_Ok in H as (v2 & _ & H).
  apply bind_Ok in H as (v3 & _ & H). apply bind_Ok in H as (v4 & _ & H).
  apply bind_Ok in H as (v5 & _ & H). apply Ok_inj in H as <-.
  split.
  - rewrite !dom_insert_L. apply set_eq. intros label.
    rewrite !elem_of_union, !elem_of_singleton. tauto.
  - intros label Hlabel. rewrite !not_elem_of_cons in Hlabel.
    destruct Hlabel as (? & ? & ? & ? & ? & _).
    by rewrite !lookup_insert_ne.
Qed.

Lemma normalize_other_columns_witness :
  normalize_of DataAnalyst ascii_lower Samples.one_record
  = Ok (<["Zip" := Str "4000"]> (<["Variant" := Str "Avant"]>
       (<["Condition" := Str "Used"]> (<["BodyColorText" := Str "Black"]>
       (<["BodyTypeText" := Str "Single seater"]> Samples.one_record)))))
  ∧ <["Zip" := Str "4000"]> (<["Variant" := Str "Avant"]>
       (<["Condition" := Str "Used"]> (<["BodyColorText" := Str "Black"]>
       (<["BodyTypeText" := Str "Single seater"]> Samples.one_record))))
    !! "Km" = Samples.one_record !! "Km".
Proof.
  assert (normalize_of DataAnalyst ascii_lower Samples.one_record
    = Ok (<["Zip" := Str "4000"]> (<["Variant" := Str "Avant"]>
       (<["Condition" := Str "Used"]> (<["BodyColorText" := Str "Black"]>
       (<["BodyTypeText" := Str "Single seater"]> Samples.one_record)))))) as H.
  { apply outcome_Some.
    match goal with
    | |- ?P => apply (bool_decide_eq_true_1 P); vm_compute; reflexivity
    end. }
  split; [done |].
  apply (normalize_other_columns DataAnalyst ascii_lower _ _ H).
  match goal with
  | |- ?P => apply (bool_decide_eq_true_1 P); vm_compute; reflexivity
  end.
Defined.

End NormalizeProperties.

(** ** The integrator *)

Section IntegrateProperties.
Import RuleFacts IntegrateFacts.

Ltac unfold_integrate H :=
  match type of H with
  | integrate_of ?impl _ = _ =>
      destruct impl; cbn [integrate_of] in H;
      [unfold onedot_solution.integrate in H
      |unfold onedot_data_analyst_solution.integrate in H]
  end.

(** X9.  When [integrate] returns, the record has exactly the eighteen
    columns of the target schema, and six of them are constants: currency
    [CHF], drive [LHD], country [CH], mileage unit [kilometer], type [car]
    and an empty price on request. *)
Theorem integrate_schema (impl : script) (row out : Series) :
  integrate_of impl row = Ok out →
  dom out
  = list_to_set
      ["carType"; "color"; "condition"; "currency"; "drive"; "city";
       "country"; "make"; "manufacture_year"; "mileage"; "mileage_unit";
       "model"; "model_variant"; "price_on_request"; "type"; "zip";
       "manufacture_month"; "fuel_consumption_unit"]
  ∧ out !! "currency" = Some (Str "CHF")
  ∧ out !! "drive" = Some (Str "LHD")
  ∧ out !! "country" = Some (Str "CH")
  ∧ out !! "mileage_unit" = Some (Str "kilometer")
  ∧ out !! "type" = Some (Str "car")
  ∧ out !! "price_on_request" = Some PyNone.
Proof.
  intros H. unfold_integrate H; run_integrate H;
    (split; [by rewrite dom_list_to_map_L | split_and!; vm_compute; reflexivity]).
Qed.

Lemma integrated_sample (impl : script) :
  integrate_of impl (SampleRecords.normalized impl)
  = Ok (SampleRecords.integrated impl).
Proof.
  apply outcome_Some.
  destruct impl;
    match goal with
    | |- ?P => apply (bool_decide_eq_true_1 P); vm_compute; reflexivity
    end.
Qed.

Lemma integrate_schema_witness :
  integrate_of Solution (SampleRecords.normalized Solution)
  = Ok (SampleRecords.integrated Solution)
  ∧ SampleRecords.integrated Solution !! "currency" = Some (Str "CHF").
Proof.
  split; [apply integrated_sample |].
  by destruct (integrate_schema Solution _ _ (integrated_sample Solution))
    as (_ & Hcur & _).
Defined.

(** The cells that [integrate] copies. *)
Lemma integrate_cells (impl : script) (row out : Series) :
  integrate_of impl row = Ok out →
  out !! "carType" = row !! "BodyTypeText"
  ∧ out !! "color" = row !! "BodyColorText"
  ∧ out !! "city" = row !! "City"
  ∧ out !! "make" = row !! "MakeText"
  ∧ out !! "manufacture_year" = row !! "FirstRegYear"
  ∧ out !! "manufacture_month" = row !! "FirstRegMonth"
  ∧ out !! "mileage" = row !! "Km"
  ∧ out !! "model" = row !! "ModelText"
  ∧ out !! "model_variant" = row !! "Variant"
  ∧ out !! "zip" = row !! "Zip"
  ∧ out !! "condition"
    = row !! (if impl is Solution then "ConditionTypeText" else "Condition").
Proof.
  intros H. unfold_integrate H; run_integrate H;
    repeat match goal with
    | E : row !! _ = Some _ |- _ => rewrite E; clear E
    end;
    split_and!; vm_compute; reflexivity.
Qed.

(** X10.  When [integrate] returns, ten fields are copies of cells of the
    row: carType, color, city, make, manufacture year and month, mileage,
    model, model variant and zip come from [BodyTypeText], [BodyColorText],
    [City], [MakeText], [FirstRegYear], [FirstRegMonth], [Km], [ModelText],
    [Variant] and [Zip].  The condition comes from [ConditionTypeText] in
    the first script and from [Condition] in the second. *)
Theorem integrate_copies (impl : script) (row out : Series) :
  integrate_of impl row = Ok out →
  out !! "carType" = row !! "BodyTypeText"
  ∧ out !! "color" = row !! "BodyColorText"
  ∧ out !! "city" = row !! "City"
  ∧ out !! "make" = row !! "MakeText"
  ∧ out !! "manufacture_year" = row !! "FirstRegYear"
  ∧ out !! "manufacture_month" = row !! "FirstRegMonth"
  ∧ out !! "mileage" = row !! "Km"
  ∧ out !! "model" = row !! "ModelText"
  ∧ out !! "model_variant" = row !! "Variant"
  ∧ out !! "zip" = row !! "Zip"
  ∧ out !! "condition"
    = row !! (if impl is Solution then "ConditionTypeText" else "Condition").
Proof. apply integrate_cells. Qed.

Lemma integrate_copies_witness :
  integrate_of DataAnalyst (SampleRecords.normalized DataAnalyst)
  = Ok (SampleRecords.integrated DataAnalyst)
  ∧ SampleRecords.integrated DataAnalyst !! "condition"
    = SampleRecords.normalized DataAnalyst !! "Condition".
Proof.
  split; [apply integrated_sample |].
  by destruct (integrate_copies DataAnalyst _ _ (integrated_sample DataAnalyst))
    as (_ & _ & _ & _ & _ & _ & _ & _ & _ & _ & Hcond).
Defined.

(** X11.  [integrate] returns exactly when the row has the twelve columns
    it reads, whatever their cells hold, and the only exception it raises
    is [KeyError]. *)
Theorem integrate_needs_columns (impl : script) (row : Series) :
  ((∃ out, integrate_of impl row = Ok out)
   ↔ ∀ label,
       label ∈ ["BodyTypeText"; "BodyColorText";
                if impl is Solution then "ConditionTypeText" else "Condition";
                "City"; "MakeText"; "FirstRegYear"; "Km"; "ModelText";
                "Variant"; "Zip"; "FirstRegMonth"; "ConsumptionTotalText"] →
       is_Some (row !! label))
  ∧ ∀ e, integrate_of impl row = Raise e → e = KeyError.
Proof.
  destruct impl; cbn [integrate_of];
    [unfold onedot_solution.integrate | unfold onedot_data_analyst_solution.integrate];
    unfold getitem;
    repeat match goal with
    | |- context [mbind _ (match row !! ?label with _ => _ end)] =>
        let E := fresh "E" in
        destruct (row !! label) eqn:E; cbn [mbind result_bind];
        [| split;
           [split;
            [by intros [? ?]
            |intros Hall; destruct (Hall label) as [? Hsome];
             [repeat first [by left | right] | congruence]]
           |by intros ? [= <-]]]
    end;
    (split; [| done]);
    (split; [intros _ label Hin | by eexists]);
    repeat (apply elem_of_cons in Hin as [->|Hin]; [by eexists |]);
    by apply elem_of_nil in Hin.
Qed.

(** X12.  When [integrate] returns, the fuel consumption unit is either
    [l_km_consumption] or empty, and it is [l_km_consumption] exactly when
    the consumption cell is true for Python and differs from the text
    [null]: a text that is neither empty nor [null], a number other than
    zero, or the missing value NaN.  The empty text, the text [null] and a
    null give the empty unit. *)
Theorem fuel_consumption_unit_cases (impl : script) (row out : Series) c :
  integrate_of impl row = Ok out →
  row !! "ConsumptionTotalText" = Some c →
  (out !! "fuel_consumption_unit" = Some (Str "l_km_consumption")
   ∨ out !! "fuel_consumption_unit" = Some PyNone)
  ∧ (out !! "fuel_consumption_unit" = Some (Str "l_km_consumption")
     ↔ c = NaN
       ∨ (∃ text, c = Str text ∧ text ≠ EmptyString ∧ text ≠ "null")
       ∨ (∃ n, c = Int n ∧ n ≠ 0)).
Proof.
  intros H Hc. rewrite (fuel_consumption_unit_value impl row out c H Hc).
  destruct c as [| |text|n]; unfold truthy, py_ne, py_eq.
  - split; [by left |]. split; [by left | done].
  - split; [by right |]. split; [done |].
    intros [?|[(? & ? & _)|(? & ? & _)]]; done.
  - destruct (String.eqb_spec text EmptyString) as [->|Hne1]; cbn [negb andb].
    + split; [by right |]. split; [done |].
      intros [?|[(? & [= <-] & ? & _)|(? & ? & _)]]; done.
    + destruct (String.eqb_spec text "null") as [->|Hne2]; cbn [negb].
      * split; [by right |]. split; [done |].
        intros [?|[(? & [= <-] & _ & ?)|(? & ? & _)]]; done.
      * split; [by left |]. split; [| done].
        intros _. right. left. by exists text.
  - destruct (Z.eqb_spec n 0) as [->|Hne]; cbn [negb andb].
    + split; [by right |]. split; [done |].
      intros [?|[(? & ? & _)|(? & [= <-] & ?)]]; done.
    + split; [by left |]. split; [| done].
      intros _. do 2 right. by exists n.
Qed.

Lemma fuel_consumption_unit_cases_witness :
  integrate_of Solution (SampleRecords.normalized Solution)
  = Ok (SampleRecords.integrated Solution)
  ∧ SampleRecords.normalized Solution !! "ConsumptionTotalText"
    = Some (Str "6.1 l/100km")
  ∧ SampleRecords.integrated Solution !! "fuel_consumption_unit"
    = Some (Str "l_km_consumption").
Proof.
  assert (SampleRecords.normalized Solution !! "ConsumptionTotalText"
          = Some (Str "6.1 l/100km")) as Hc by (vm_compute; reflexivity).
  split_and!; [apply integrated_sample | done |].
  destruct (fuel_consumption_unit_cases Solution _ _ _
              (integrated_sample Solution) Hc) as [_ Hiff].
  apply Hiff. right. left. exists "6.1 l/100km". split_and!; done.
Defined.

End IntegrateProperties.

(** ** The aggregator *)

Module AggregateFacts.
Import pandas AggregationFacts.

Lemma dict_of_snoc pairs k v :
  dict_of (pairs ++ [(k, v)])%list = <[k := v]> (dict_of pairs).
Proof. unfold dict_of. by rewrite foldl_snoc. Qed.

(** A dict comprehension keeps, for every key, the value of its last pair. *)
Lemma dict_of_lookup pairs label :
  dict_of pairs !! label = last (filter (λ nv, nv.1 = label) pairs).*2.
Proof.
  induction pairs as [|[k v] pairs IH] using rev_ind; [done |].
  rewrite dict_of_snoc, filter_app, filter_cons, filter_nil. cbn [fst].
  destruct (decide (k = label)) as [->|Hne].
  - rewrite lookup_insert_eq, fmap_app. apply eq_sym, last_snoc.
  - by rewrite lookup_insert_ne, app_nil_r.
Qed.

Lemma constant_columns_of_key (k : key) :
  (zip onedot_solution.CONSTANT_COLUMNS (key_cells k)).*1
  = onedot_solution.CONSTANT_COLUMNS.
Proof. by destruct k as [[[[[i mk] tn] tf] mo] mt]. Qed.

Lemma constants_hit (k : key) column cell :
  (column, cell) ∈ zip onedot_solution.CONSTANT_COLUMNS (key_cells k) →
  list_to_map (M := Series) (zip onedot_solution.CONSTANT_COLUMNS (key_cells k))
    !! column = Some cell.
Proof.
  apply elem_of_list_to_map_1. rewrite constant_columns_of_key. compute_done.
Qed.

Lemma constants_miss (k : key) label :
  label ∉ onedot_solution.CONSTANT_COLUMNS →
  list_to_map (M := Series) (zip onedot_solution.CONSTANT_COLUMNS (key_cells k))
    !! label = None.
Proof.
  intros H. apply not_elem_of_list_to_map_1. by rewrite constant_columns_of_key.
Qed.

Lemma aggr_attr_eq row :
  onedot_data_analyst_solution.aggr_attr row
  = onedot_solution.aggregate_attributes row.
Proof. done. Qed.

Lemma aggregate_attributes_constant row column cell :
  (column, cell) ∈ zip onedot_solution.CONSTANT_COLUMNS (key_cells (agg_key row)) →
  onedot_solution.aggregate_attributes row !! column = Some cell.
Proof.
  intros H. unfold onedot_solution.aggregate_attributes, update.
  by apply lookup_union_Some_l, constants_hit.
Qed.

Lemma aggregate_attributes_attribute row label :
  label ∉ onedot_solution.CONSTANT_COLUMNS →
  onedot_solution.aggregate_attributes row !! label
  = last (filter (λ nv, nv.1 = label) (zip (agg_names row) (agg_values row))).*2.
Proof.
  intros H. unfold onedot_solution.aggregate_attributes, update.
  rewrite lookup_union_r by (by apply constants_miss).
  apply dict_of_lookup.
Qed.

(** *** Frames *)

Lemma DataFrame_lookup rows i r :
  DataFrame rows !! i = Some r
  ↔ ∃ row, rows !! i = Some row
           ∧ r = row ∪ gset_to_gmap NaN (⋃ (dom <$> rows)).
Proof.
  unfold DataFrame. rewrite list_lookup_fmap_Some. split.
  - intros (row & Hrow & ->). by exists row.
  - intros (row & Hrow & ->). by exists row.
Qed.

Lemma DataFrame_elem rows r :
  r ∈ DataFrame rows
  ↔ ∃ row, row ∈ rows ∧ r = row ∪ gset_to_gmap NaN (⋃ (dom <$> rows)).
Proof.
  unfold DataFrame. rewrite list_elem_of_fmap. split.
  - intros (row & -> & Hrow). by exists row.
  - intros (row & Hrow & ->). by exists row.
Qed.

Lemma filled_dom (rows : list Series) row :
  row ∈ rows →
  dom (row ∪ gset_to_gmap NaN (⋃ (dom <$> rows))) = ⋃ (dom <$> rows).
Proof.
  intros Hrow. rewrite dom_union_L, dom_gset_to_gmap.
  apply set_eq. intros label. rewrite elem_of_union. split; [| by right].
  intros [Hin|Hin]; [| done].
  apply elem_of_union_list. exists (dom row). split; [| done].
  by apply list_elem_of_fmap_2.
Qed.

Lemma filled_lookup (rows : list Series) (row : Series) label v :
  (row ∪ gset_to_gmap NaN (⋃ (dom <$> rows))) !! label = Some v
  ↔ row !! label = Some v
    ∨ (row !! label = None ∧ v = NaN
       ∧ ∃ row' : Series, row' ∈ rows ∧ is_Some (row' !! label)).
Proof.
  rewrite lookup_union_Some_raw, lookup_gset_to_gmap_Some, elem_of_union_list.
  split.
  - intros [?|(Hnone & (X & HX & Hin) & <-)]; [by left | right].
    apply list_elem_of_fmap in HX as (row' & -> & Hrow').
    split_and!; [done | done |]. exists row'. split; [done |].
    by apply elem_of_dom.
  - intros [?|(Hnone & -> & row' & Hrow' & Hsome)]; [by left | right].
    split_and!; [done | | done]. exists (dom row'). split.
    + by apply list_elem_of_fmap_2.
    + by apply elem_of_dom.
Qed.

(** *** Groups *)

Lemma aggregate_unfold impl df :
  aggregate impl df
  = DataFrame (record_of_group impl
               <$> groupby_agg_list (dropna_of impl) (sort_values df)).
Proof.
  destruct impl; [done |]. cbn [aggregate record_of_group dropna_of].
  unfold onedot_data_analyst_solution.df_grp_agg_attr,
    onedot_data_analyst_solution.df_grp_agg, onedot_data_analyst_solution.df_grp.
  by rewrite <- list_fmap_compose.
Qed.

(** The rows that [groupby] keeps. *)
Lemma kept_rows (dropna : bool) (df : list raw_row) (r : raw_row) :
  r ∈ (if dropna then filter (λ r, has_na (key_of r) = false) df else df)
  ↔ r ∈ df ∧ (dropna = true → has_na (key_of r) = false).
Proof.
  destruct dropna.
  - rewrite list_elem_of_filter. split; [intros [? ?] | intros [? H]]; auto.
  - split; [intros ? | intros [? _]]; [split |]; done.
Qed.

Lemma zip_fmap_same {X Y Z} (f : X → Y) (g : X → Z) (l : list X) :
  zip (f <$> l) (g <$> l) = (λ x, (f x, g x)) <$> l.
Proof. induction l as [|x l IH]; [done |]. cbn. by rewrite IH. Qed.

(** A group: its key is the key of some kept row, and its attribute pairs
    are those of the kept rows with that key, in frame order. *)
Lemma groupby_group dropna df g :
  g ∈ groupby_agg_list dropna df →
  (∃ r, r ∈ df ∧ key_of r = agg_key g
        ∧ (dropna = true → has_na (agg_key g) = false))
  ∧ zip (agg_names g) (agg_values g)
    = (λ r, (Attribute_Names r, Attribute_Values r))
      <$> filter (λ r, key_of r = agg_key g)
            (if dropna then filter (λ r, has_na (key_of r) = false) df else df).
Proof.
  intros Hg. split; [by apply groupby_key_kept |].
  unfold groupby_agg_list in Hg.
  apply list_elem_of_fmap in Hg as (k & -> & _). cbn [agg_key agg_names agg_values].
  apply zip_fmap_same.
Qed.

(** Every key of a kept row has its group. *)
Lemma groupby_has_group dropna df r :
  r ∈ df → (dropna = true → has_na (key_of r) = false) →
  ∃ g, g ∈ groupby_agg_list dropna df ∧ agg_key g = key_of r.
Proof.
  intros Hr Hna.
  assert (key_of r ∈ agg_key <$> groupby_agg_list dropna df) as Hk.
  { rewrite groupby_keys, elem_of_remove_dups.
    apply list_elem_of_fmap_2. by apply kept_rows. }
  apply list_elem_of_fmap in Hk as (g & Hkey & Hg). by exists g.
Qed.

Lemma record_of_group_constants impl g :
  carries_key impl (agg_key g) (record_of_group impl g).
Proof.
  intros column cell Hin. unfold constant_cells in Hin.
  destruct impl; cbn [record_of_group stored_key] in *.
  - by apply aggregate_attributes_constant.
  - rewrite aggr_attr_eq. apply aggregate_attributes_constant.
    by destruct g as [[[[[[i mk] tn] tf] mo] mt] names values].
Qed.

Lemma record_of_group_attribute impl g label :
  label ∉ onedot_solution.CONSTANT_COLUMNS →
  record_of_group impl g !! label
  = last (filter (λ nv, nv.1 = label) (zip (agg_names g) (agg_values g))).*2.
Proof.
  intros Hlabel. destruct impl; cbn [record_of_group].
  - by apply aggregate_attributes_attribute.
  - rewrite aggr_attr_eq, aggregate_attributes_attribute by done.
    by destruct g as [[[[[[i mk] tn] tf] mo] mt] names values].
Qed.

Lemma constant_cells_columns impl k :
  (constant_cells impl k).*1 = onedot_solution.CONSTANT_COLUMNS.
Proof. apply constant_columns_of_key. Qed.

(** A filled record still carries the key of its group. *)
Lemma carries_key_filled impl k (row fill : Series) :
  carries_key impl k row → carries_key impl k (row ∪ fill).
Proof.
  intros H column cell Hin. by apply lookup_union_Some_l, H.
Qed.

(** The records of the frame, one by one. *)
Lemma aggregate_record impl df record :
  record ∈ aggregate impl df
  ↔ ∃ g, g ∈ groupby_agg_list (dropna_of impl) (sort_values df)
         ∧ record
           = record_of_group impl g
             ∪ gset_to_gmap NaN
                 (⋃ (dom <$> (record_of_group impl
                      <$> groupby_agg_list (dropna_of impl) (sort_values df)))).
Proof.
  rewrite aggregate_unfold, DataFrame_elem. split.
  - intros (row & Hrow & ->).
    apply list_elem_of_fmap in Hrow as (g & -> & Hg). by exists g.
  - intros (g & Hg & ->). exists (record_of_group impl g).
    split; [by apply list_elem_of_fmap_2 | done].
Qed.

(** *** The order of the groups *)

Lemma compare_na_antisym {X} (cmp : X → X → comparison) x y :
  (∀ a b, cmp b a = CompOpp (cmp a b)) →
  compare_na cmp y x = CompOpp (compare_na cmp x y).
Proof. intros H. destruct x, y; simpl; auto. Qed.

Lemma lex_opp c1 c2 : lex (CompOpp c1) (CompOpp c2) = CompOpp (lex c1 c2).
Proof. by destruct c1. Qed.

Lemma string_compare_antisym a b : String.compare b a = CompOpp (String.compare a b).
Proof. apply String.compare_antisym. Qed.

Lemma key_compare_antisym k1 k2 : key_compare k2 k1 = CompOpp (key_compare k1 k2).
Proof.
  destruct k1 as [[[[[i1 mk1] tn1] tf1] mo1] mt1],
    k2 as [[[[[i2 mk2] tn2] tf2] mo2] mt2].
  unfold key_compare.
  rewrite (compare_na_antisym Z.compare i1 i2)
    by (intros; apply Z.compare_antisym).
  rewrite (compare_na_antisym String.compare mk1 mk2),
    (compare_na_antisym String.compare tn1 tn2),
    (compare_na_antisym String.compare tf1 tf2),
    (compare_na_antisym String.compare mo1 mo2),
    (compare_na_antisym String.compare mt1 mt2)
    by (intros; apply string_compare_antisym).
  by rewrite !lex_opp.
Qed.

Lemma key_le_total : Total key_le.
Proof.
  intros k1 k2. unfold key_le. rewrite (key_compare_antisym k1 k2).
  destruct (key_compare k1 k2); simpl; [left | left | right]; done.
Qed.

(** The identifier of a key, and the order of identifiers: numbers in
    ascending order, a missing identifier after every number. *)
Lemma key_le_ID k1 k2 :
  key_le k1 k2 → compare_na Z.compare k1.1.1.1.1.1 k2.1.1.1.1.1 ≠ Gt.
Proof.
  destruct k1 as [[[[[i1 mk1] tn1] tf1] mo1] mt1],
    k2 as [[[[[i2 mk2] tn2] tf2] mo2] mt2].
  unfold key_le, key_compare. cbn [fst].
  by destruct (compare_na Z.compare i1 i2).
Qed.

Lemma ID_order_trans (x y z : option Z) :
  compare_na Z.compare x y ≠ Gt → compare_na Z.compare y z ≠ Gt →
  compare_na Z.compare x z ≠ Gt.
Proof.
  destruct x as [a|], y as [b|], z as [c|]; simpl; try done.
  rewrite !Z.compare_gt_iff. lia.
Qed.

Lemma Sorted_weaken {X} (R R' : relation X) l :
  (∀ x y, R x y → R' x y) → Sorted R l → Sorted R' l.
Proof.
  intros HR. induction 1 as [|x l Hl IH Hhd]; constructor; [done |].
  destruct Hhd; constructor. by apply HR.
Qed.

Lemma groupby_keys_sorted dropna df :
  StronglySorted (λ k1 k2, compare_na Z.compare k1.1.1.1.1.1 k2.1.1.1.1.1 ≠ Gt)
    (agg_key <$> groupby_agg_list dropna df).
Proof.
  unfold groupby_agg_list. rewrite <- list_fmap_compose, fmap_id_ext by done.
  apply Sorted_StronglySorted.
  - intros x y z. apply ID_order_trans.
  - apply (Sorted_weaken key_le); [apply key_le_ID |].
    apply (@Sorted_merge_sort _ key_le _ key_le_total).
Qed.

Lemma StronglySorted_lookup {X} (R : relation X) l i j x y :
  StronglySorted R l → (i < j)%nat → l !! i = Some x → l !! j = Some y → R x y.
Proof.
  intros Hl. revert i j. induction Hl as [|a l Hl IH Hall]; intros i j Hij Hi Hj.
  - done.
  - destruct j as [|j]; [lia |]. destruct i as [|i]; simpl in *.
    + injection Hi as <-. eapply Forall_forall in Hall; [done |].
      by eapply list_elem_of_lookup_2.
    + apply (IH i j); [lia | done | done].
Qed.

(** The identifier cell of a record is that of its group. *)
Lemma record_ID impl g (fill : Series) :
  (record_of_group impl g ∪ fill) !! "ID" = Some (cell_of_num (agg_key g).1.1.1.1.1).
Proof.
  apply lookup_union_Some_l. apply (record_of_group_constants impl g).
  destruct impl, g as [[[[[[i mk] tn] tf] mo] mt] names values]; by left.
Qed.

End AggregateFacts.

Section AggregateProperties.
Import pandas AggregationFacts AggregateFacts.

(** A closed decidable statement, by evaluation. *)
Ltac by_decision :=
  match goal with
  | |- ?P => apply (bool_decide_eq_true_1 P); vm_compute; reflexivity
  end.

(** X13.  [aggregate_attributes] (and [aggr_attr], which is the same
    function) builds the record of a group from the attribute pairs and the
    six constant columns: a label that is no constant column holds the value
    of the last pair with that name, or nothing when there is no such pair;
    a constant column holds the cell of the key, also when an attribute of
    the same name exists. *)
Theorem aggregate_attributes_cells (row : agg_row) (label : string) :
  onedot_data_analyst_solution.aggr_attr row
  = onedot_solution.aggregate_attributes row
  ∧ (label ∉ onedot_solution.CONSTANT_COLUMNS →
     onedot_solution.aggregate_attributes row !! label
     = last (filter (λ nv, nv.1 = label) (zip (agg_names row) (agg_values row))).*2)
  ∧ (∀ cell,
       (label, cell)
       ∈ zip onedot_solution.CONSTANT_COLUMNS (key_cells (agg_key row)) →
       onedot_solution.aggregate_attributes row !! label = Some cell).
Proof.
  split_and!; [done | apply aggregate_attributes_attribute |].
  intros cell. apply aggregate_attributes_constant.
Qed.

(** X14.  The first script emits one record for every distinct key tuple
    that has no missing field, the second one for every distinct key tuple;
    in both the number of records does not depend on the order of the rows
    of the catalog. *)
Theorem aggregate_count (df : list raw_row) :
  length (onedot_solution.agg_data df)
  = length (remove_dups (filter (λ k, has_na k = false) (key_of <$> df)))
  ∧ length (onedot_data_analyst_solution.df_grp_agg_attr df)
    = length (remove_dups (key_of <$> df))
  ∧ ∀ impl df', df ≡ₚ df' →
      length (aggregate impl df) = length (aggregate impl df').
Proof.
  split_and!.
  - apply agg_data_one_per_complete_key.
  - apply df_grp_agg_attr_one_per_key.
  - intros impl df' Hp. destruct impl; cbn [aggregate].
    + rewrite !agg_data_one_per_complete_key.
      apply Permutation_length, remove_dups_perm. by rewrite Hp.
    + rewrite !(proj2 (df_grp_agg_attr_one_per_key _)).
      apply Permutation_length, remove_dups_perm. by rewrite Hp.
Qed.

(** X15.  Records and key tuples correspond: every record carries, in its
    six constant columns, the key of some row of the catalog (in the first
    script a key without a missing field; in the second with a missing
    model text turned into the text [nan]), and every row of the catalog
    (in the first script: every row whose key has no missing field) has a
    record that carries its key. *)
Theorem aggregate_records_and_keys (impl : script) (df : list raw_row) :
  (∀ record, record ∈ aggregate impl df →
     ∃ r, r ∈ df ∧ carries_key impl (key_of r) record
          ∧ (impl = Solution → has_na (key_of r) = false))
  ∧ (∀ r, r ∈ df → (impl = Solution → has_na (key_of r) = false) →
       ∃ record, record ∈ aggregate impl df ∧ carries_key impl (key_of r) record).
Proof.
  split.
  - intros record Hrec. apply aggregate_record in Hrec as (g & Hg & ->).
    apply groupby_group in Hg as [(r & Hr & Hkey & Hna) _].
    exists r. rewrite sort_values_perm in Hr. split_and!; [done | |].
    + rewrite Hkey. apply carries_key_filled, record_of_group_constants.
    + intros ->. rewrite Hkey. by apply Hna.
  - intros r Hr Hna.
    destruct (groupby_has_group (dropna_of impl) (sort_values df) r)
      as (g & Hg & Hkey).
    + by rewrite sort_values_perm.
    + destruct impl; [by intros _; apply Hna | done].
    + eexists. split; [apply aggregate_record; by exists g |].
      rewrite <- Hkey. apply carries_key_filled, record_of_group_constants.
Qed.

(** X17.  All records of an aggregated collection have the same columns. *)
Theorem aggregate_same_columns (impl : script) (df : list raw_row)
    (r1 r2 : Series) :
  r1 ∈ aggregate impl df → r2 ∈ aggregate impl df → dom r1 = dom r2.
Proof.
  rewrite aggregate_unfold, !DataFrame_elem.
  intros (row1 & H1 & ->) (row2 & H2 & ->). by rewrite !filled_dom.
Qed.

Lemma aggregate_same_columns_witness :
  SampleRecords.record_at (aggregate Solution Samples.colour_missing) 0
  ∈ aggregate Solution Samples.colour_missing
  ∧ SampleRecords.record_at (aggregate Solution Samples.colour_missing) 1
    ∈ aggregate Solution Samples.colour_missing
  ∧ dom (SampleRecords.record_at (aggregate Solution Samples.colour_missing) 0)
    = dom (SampleRecords.record_at (aggregate Solution Samples.colour_missing) 1).
Proof.
  assert (SampleRecords.record_at (aggregate Solution Samples.colour_missing) 0
          ∈ aggregate Solution Samples.colour_missing) as H0 by by_decision.
  assert (SampleRecords.record_at (aggregate Solution Samples.colour_missing) 1
          ∈ aggregate Solution Samples.colour_missing) as H1 by by_decision.
  split_and!; [done | done |].
  apply (aggregate_same_columns Solution Samples.colour_missing _ _ H0 H1).
Defined.

(** X18.  A cell of a record outside the constant columns is either the
    missing value NaN or the attribute value of a row of the catalog that
    has the record's key and the column's name: no value moves from one
    vehicle to another. *)
Theorem aggregate_attribute_origin (impl : script) (df : list raw_row)
    (record : Series) (label : string) (v : pyval) :
  record ∈ aggregate impl df →
  label ∉ onedot_solution.CONSTANT_COLUMNS →
  record !! label = Some v →
  v = NaN
  ∨ ∃ r, r ∈ df ∧ carries_key impl (key_of r) record
         ∧ Attribute_Names r = label ∧ Attribute_Values r = v.
Proof.
  intros Hrec Hlabel Hv. apply aggregate_record in Hrec as (g & Hg & ->).
  apply filled_lookup in Hv as [Hv|(_ & -> & _)]; [| by left]. right.
  rewrite record_of_group_attribute in Hv by done.
  apply groupby_group in Hg as [_ Hpairs]. rewrite Hpairs in Hv.
  apply last_Some_elem_of, list_elem_of_fmap in Hv as ([name v'] & -> & Hin).
  apply list_elem_of_filter in Hin as [Hname Hin]. cbn [fst snd] in *.
  apply list_elem_of_fmap in Hin as (r & [= -> ->] & Hr).
  apply list_elem_of_filter in Hr as [Hkey Hr].
  apply kept_rows in Hr as [Hr _]. rewrite sort_values_perm in Hr.
  exists r. split_and!; [done | | done | done].
  rewrite Hkey. apply carries_key_filled, record_of_group_constants.
Qed.

Lemma aggregate_attribute_origin_witness :
  SampleRecords.record_at (aggregate DataAnalyst Samples.model_missing) 0
  ∈ aggregate DataAnalyst Samples.model_missing
  ∧ ("Km" ∉ onedot_solution.CONSTANT_COLUMNS)
  ∧ SampleRecords.record_at (aggregate DataAnalyst Samples.model_missing) 0 !! "Km"
    = Some (Str "52000")
  ∧ (Str "52000" = NaN
     ∨ ∃ r, r ∈ Samples.model_missing
            ∧ carries_key DataAnalyst (key_of r)
                (SampleRecords.record_at
                   (aggregate DataAnalyst Samples.model_missing) 0)
            ∧ Attribute_Names r = "Km" ∧ Attribute_Values r = Str "52000").
Proof.
  assert (SampleRecords.record_at (aggregate DataAnalyst Samples.model_missing) 0
          ∈ aggregate DataAnalyst Samples.model_missing) as Hin by by_decision.
  assert ("Km" ∉ onedot_solution.CONSTANT_COLUMNS) as Hkm by by_decision.
  assert (SampleRecords.record_at (aggregate DataAnalyst Samples.model_missing) 0
            !! "Km" = Some (Str "52000")) as Hv by (vm_compute; reflexivity).
  split_and!; [done | done | done |].
  apply (aggregate_attribute_origin DataAnalyst Samples.model_missing _ _ _
           Hin Hkm Hv).
Defined.



(** X20.  The records come out sorted by identifier: of two records, the
    earlier one has the smaller or equal number in [ID], and a record
    without an identifier is followed only by records without one. *)
Theorem aggregate_sorted_by_ID (impl : script) (df : list raw_row)
    (i j : nat) (ri rj : Series) :
  (i < j)%nat →
  aggregate impl df !! i = Some ri →
  aggregate impl df !! j = Some rj →
  (∀ a b, ri !! "ID" = Some (Int a) → rj !! "ID" = Some (Int b) → a ≤ b)
  ∧ (ri !! "ID" = Some NaN → rj !! "ID" = Some NaN).
Proof.
  rewrite aggregate_unfold. intros Hij Hi Hj.
  apply DataFrame_lookup in Hi as (rowi & Hi & ->).
  apply DataFrame_lookup in Hj as (rowj & Hj & ->).
  apply list_lookup_fmap_Some in Hi as (gi & -> & Hi).
  apply list_lookup_fmap_Some in Hj as (gj & -> & Hj).
  rewrite !record_ID.
  pose proof (StronglySorted_lookup _ _ i j (agg_key gi) (agg_key gj)
                (groupby_keys_sorted (dropna_of impl) (sort_values df)) Hij)
    as Hle.
  rewrite !list_lookup_fmap, Hi, Hj in Hle. specialize (Hle eq_refl eq_refl).
  destruct ((agg_key gi).1.1.1.1.1) as [a|], ((agg_key gj).1.1.1.1.1) as [b|];
    simpl in *; split; try done.
  intros a' b' [= <-] [= <-]. by apply Z.compare_le_iff.
Qed.

Lemma aggregate_sorted_by_ID_witness :
  (0 < 1)%nat
  ∧ aggregate Solution Samples.colour_missing !! 0%nat
    = Some (SampleRecords.record_at (aggregate Solution Samples.colour_missing) 0)
  ∧ aggregate Solution Samples.colour_missing !! 1%nat
    = Some (SampleRecords.record_at (aggregate Solution Samples.colour_missing) 1)
  ∧ SampleRecords.record_at (aggregate Solution Samples.colour_missing) 0 !! "ID"
    = Some (Int 5)
  ∧ SampleRecords.record_at (aggregate Solution Samples.colour_missing) 1 !! "ID"
    = Some (Int 6)
  ∧ 5 ≤ 6.
Proof.
  assert (aggregate Solution Samples.colour_missing !! 0%nat
    = Some (SampleRecords.record_at (aggregate Solution Samples.colour_missing) 0))
    as H0 by by_decision.
  assert (aggregate Solution Samples.colour_missing !! 1%nat
    = Some (SampleRecords.record_at (aggregate Solution Samples.colour_missing) 1))
    as H1 by by_decision.
  assert (SampleRecords.record_at (aggregate Solution Samples.colour_missing) 0
            !! "ID" = Some (Int 5)) as Ha by (vm_compute; reflexivity).
  assert (SampleRecords.record_at (aggregate Solution Samples.colour_missing) 1
            !! "ID" = Some (Int 6)) as Hb by (vm_compute; reflexivity).
  split_and!; [lia | done | done | done | done |].
  destruct (aggregate_sorted_by_ID Solution Samples.colour_missing 0 1 _ _
              ltac:(lia) H0 H1) as [Hle _].
  by apply Hle.
Defined.

End AggregateProperties.

(** ** The stages together *)

Module PipelineFacts.
Import pandas RuleFacts AggregationFacts AggregateFacts.

Lemma apply_rows_Ok {X Y} (f : X → result Y) l ys :
  apply_rows f l = Ok ys ↔ Forall2 (λ x y, f x = Ok y) l ys.
Proof.
  revert ys. induction l as [|x l IH]; intros ys; cbn [apply_rows].
  - split; [intros [= <-]; constructor | by inversion 1].
  - split.
    + intros H. apply bind_Ok in H as (y & Hy & H).
      apply bind_Ok in H as (ys' & Hys & H). apply Ok_inj in H as <-.
      constructor; [done | by apply IH].
    + inversion 1 as [|? y ? ys' Hy Hys]; subst. rewrite Hy. cbn [mbind result_bind].
      apply IH in Hys. by rewrite Hys.
Qed.

Lemma apply_rows_Raise {X Y} (f : X → result Y) l e :
  apply_rows f l = Raise e → ∃ x, x ∈ l ∧ f x = Raise e.
Proof.
  induction l as [|x l IH]; cbn [apply_rows]; [done |].
  destruct (f x) as [y|e'] eqn:Hx; cbn [mbind result_bind].
  - destruct (apply_rows f l) as [ys|e'']; cbn [mbind result_bind]; [done |].
    intros [= ->]. destruct (IH eq_refl) as (x' & Hin & Hx').
    exists x'. split; [by right | done].
  - intros [= ->]. exists x. split; [by left | done].
Qed.

Lemma normalized_of_unfold impl lower df :
  normalized_of impl lower df
  = apply_rows (normalize_of impl lower) (aggregate impl df).
Proof. by destruct impl. Qed.

Lemma integrated_of_unfold impl lower df :
  integrated_of impl lower df
  = normalized_of impl lower df ≫= apply_rows (integrate_of impl).
Proof. by destruct impl. Qed.

(** The cells that the variant rule reads, in a record of the frame. *)
Lemma record_variant_cells impl df record :
  record ∈ aggregate impl df →
  (∃ m, record !! "ModelText" = Some (Str m))
  ∧ ((∃ mt, record !! "ModelTypeText" = Some (Str mt))
     ∨ (impl = DataAnalyst ∧ record !! "ModelTypeText" = Some NaN))
  ∧ is_Some (record !! "TypeName").
Proof.
  intros Hrec. pose proof Hrec as Hrec'.
  apply aggregate_record in Hrec' as (g & Hg & ->).
  pose proof (record_of_group_constants impl g) as Hk.
  apply (carries_key_filled impl _ _
           (gset_to_gmap NaN
              (⋃ (dom <$> (record_of_group impl
                   <$> groupby_agg_list (dropna_of impl) (sort_values df))))))
    in Hk.
  apply groupby_group in Hg as [(r & _ & _ & Hna) _].
  destruct (agg_key g) as [[[[[i mk] tn] tf] mo] mt] eqn:Hkey.
  split_and!.
  - destruct impl.
    + destruct mo as [m|].
      * exists m. apply Hk. unfold constant_cells. cbn. do 4 right. by left.
      * specialize (Hna eq_refl). revert Hna. cbn. by rewrite !andb_false_r.
    + destruct mo as [m|]; [exists m | exists "nan"];
        apply Hk; unfold constant_cells; cbn; do 4 right; by left.
  - destruct mt as [mt|].
    + left. exists mt. apply Hk. unfold constant_cells.
      destruct impl; cbn; do 5 right; by left.
    + destruct impl.
      * specialize (Hna eq_refl). revert Hna. cbn. by rewrite !andb_false_r.
      * right. split; [done |]. apply Hk. unfold constant_cells. cbn.
        do 5 right. by left.
  - exists (cell_of_text tn). apply Hk. unfold constant_cells.
    destruct impl; cbn; do 2 right; by left.
Qed.

End PipelineFacts.

Section PipelineProperties.
Import pandas RuleFacts LookupFacts AggregationFacts AggregateFacts PipelineFacts.

Ltac by_decision :=
  match goal with
  | |- ?P => apply (bool_decide_eq_true_1 P); vm_compute; reflexivity
  end.

(** X21.  On a record of its own aggregated collection the variant rule of
    the first script always returns: grouping has dropped every key with a
    missing field, so both texts are there.  The variant rule of the second
    script returns unless the model-type text of the record is missing, in
    which case it raises [AttributeError]; a missing model text does no
    harm there, since it has become the text [nan]. *)
Theorem variant_rule_on_records (impl : script) (lower : string → string)
    (df : list raw_row) (record : Series) :
  record ∈ aggregate impl df →
  (∃ v, variant_rule impl lower record = Ok v)
  ∨ (impl = DataAnalyst
     ∧ record !! "ModelTypeText" = Some NaN
     ∧ variant_rule impl lower record = Raise AttributeError).
Proof.
  intros Hrec.
  destruct (record_variant_cells impl df record Hrec)
    as ([m Hm] & [[mt Hmt]|[-> Hmt]] & [tn Htn]).
  - left. rewrite (variant_rule_texts impl lower record m mt) by done.
    destruct (String.eqb _ _); [by eexists |].
    exists tn. by apply getitem_Ok.
  - right. split_and!; [done | done |]. cbn [variant_rule].
    unfold onedot_data_analyst_solution.norm_variant, getitem.
    by rewrite Hm, Hmt.
Qed.

Lemma variant_rule_on_records_witness :
  SampleRecords.record_at (aggregate Solution Samples.colour_missing) 1
  ∈ aggregate Solution Samples.colour_missing
  ∧ variant_rule Solution PyStr.ascii_lower
      (SampleRecords.record_at (aggregate Solution Samples.colour_missing) 1)
    = Ok (Str "Avant").
Proof.
  assert (SampleRecords.record_at (aggregate Solution Samples.colour_missing) 1
          ∈ aggregate Solution Samples.colour_missing) as Hin by by_decision.
  split; [done |].
  destruct (variant_rule_on_records Solution PyStr.ascii_lower _ _ Hin)
    as [[v Hv]|(Himpl & _)]; [| discriminate].
  vm_compute. reflexivity.
Defined.

Lemma cartype_rule_Ok_iff (impl : script) (row : Series) :
  (∃ v, cartype_rule impl row = Ok v) ↔ is_Some (row !! "Seats").
Proof.
  split; [| apply tolerant_rules].
  intros [v Hv]. destruct impl; cbn [cartype_rule] in Hv;
    [unfold onedot_solution.normalize_cartype in Hv
    |unfold onedot_data_analyst_solution.norm_cartype in Hv];
    apply bind_Ok in Hv as (seats & Hseats & _);
    apply getitem_Ok in Hseats; by exists seats.
Qed.

Lemma color_rule_Ok_iff (impl : script) (row : Series) :
  (∃ v, color_rule impl row = Ok v)
  ↔ ∃ text, row !! "BodyColorText" = Some (Str text).
Proof.
  rewrite color_rule_eq. split.
  - intros [v Hv].
    destruct (row !! "BodyColorText") as [[| |text|n]|] eqn:E;
      try (rewrite normalize_color_no_text in Hv
             by (rewrite E; congruence); discriminate).
    by exists text.
  - intros [text Htext].
    destruct (color_pairs_vocabulary row text onedot_solution.color_table Htext)
      as (english & He & _).
    by exists (Str english).
Qed.

(** X22.  A record of an aggregated collection is normalized without an
    exception exactly when it has a [Seats] column, its colour is a text and
    its model-type text is a text.  (In the first script the last condition
    always holds.) *)
Theorem normalize_succeeds_iff (impl : script) (lower : string → string)
    (df : list raw_row) (record : Series) :
  record ∈ aggregate impl df →
  ((∃ n, normalize_of impl lower record = Ok n)
   ↔ is_Some (record !! "Seats")
     ∧ (∃ text, record !! "BodyColorText" = Some (Str text))
     ∧ (∃ text, record !! "ModelTypeText" = Some (Str text))).
Proof.
  intros Hrec. rewrite normalize_unfold. split.
  - intros [n H].
    apply bind_Ok in H as (v1 & H1 & H). apply bind_Ok in H as (v2 & H2 & H).
    apply bind_Ok in H as (v3 & H3 & H). apply bind_Ok in H as (v4 & H4 & _).
    split_and!.
    + apply (cartype_rule_Ok_iff impl). by exists v1.
    + apply (color_rule_Ok_iff impl). by exists v2.
    + destruct (record_variant_cells impl df record Hrec)
        as ([m Hm] & [Hmt|[-> Hmt]] & _); [done |].
      cbn [variant_rule] in H4.
      unfold onedot_data_analyst_solution.norm_variant, getitem in H4.
      by rewrite Hm, Hmt in H4.
  - intros ((v1 & H1)%(cartype_rule_Ok_iff impl)
            & (v2 & H2)%(color_rule_Ok_iff impl) & [mt Hmt]).
    destruct (tolerant_rules impl record) as ([v3 H3] & [v5 H5] & _).
    destruct (record_variant_cells impl df record Hrec) as ([m Hm] & _ & [tn Htn]).
    assert (∃ v4, variant_rule impl lower record = Ok v4) as [v4 H4].
    { rewrite (variant_rule_texts impl lower record m mt) by done.
      destruct (String.eqb _ _); [by eexists |]. exists tn. by apply getitem_Ok. }
    rewrite H1, H2, H3, H4, H5. by eexists.
Qed.

Lemma normalize_succeeds_iff_witness :
  SampleRecords.record_at (aggregate DataAnalyst Samples.colour_missing) 0
  ∈ aggregate DataAnalyst Samples.colour_missing
  ∧ ∃ n, normalize_of DataAnalyst PyStr.ascii_lower
           (SampleRecords.record_at (aggregate DataAnalyst Samples.colour_missing) 0)
         = Ok n.
Proof.
  assert (SampleRecords.record_at (aggregate DataAnalyst Samples.colour_missing) 0
          ∈ aggregate DataAnalyst Samples.colour_missing) as Hin by by_decision.
  split; [done |].
  apply (normalize_succeeds_iff DataAnalyst PyStr.ascii_lower _ _ Hin).
  split_and!; [| eexists | eexists]; [eexists | |]; vm_compute; reflexivity.
Defined.

(** X23.  From an aggregated row to its integrated record: when
    [normalize] and then [integrate] return, the fields carType, color,
    model variant and zip of the result are what the four rules return on
    the aggregated row; the condition is what the condition rule returns in
    the second script and the raw condition text in the first; city, make,
    model, mileage and the registration year and month are the cells of the
    aggregated row. *)
Theorem pipeline_record (impl : script) (lower : string → string)
    (row n out : Series) :
  normalize_of impl lower row = Ok n →
  integrate_of impl n = Ok out →
  out !! "carType" = outcome (cartype_rule impl row)
  ∧ out !! "color" = outcome (color_rule impl row)
  ∧ out !! "condition"
    = (if impl is Solution then row !! "ConditionTypeText"
       else outcome (condition_rule impl row))
  ∧ out !! "model_variant" = outcome (variant_rule impl lower row)
  ∧ out !! "zip" = outcome (zip_rule impl row)
  ∧ out !! "city" = row !! "City"
  ∧ out !! "make" = row !! "MakeText"
  ∧ out !! "model" = row !! "ModelText"
  ∧ out !! "mileage" = row !! "Km"
  ∧ out !! "manufacture_year" = row !! "FirstRegYear"
  ∧ out !! "manufacture_month" = row !! "FirstRegMonth".
Proof.
  rewrite normalize_unfold. intros H Hout.
  apply bind_Ok in H as (v1 & H1 & H). apply bind_Ok in H as (v2 & H2 & H).
  apply bind_Ok in H as (v3 & H3 & H). apply bind_Ok in H as (v4 & H4 & H).
  apply bind_Ok in H as (v5 & H5 & H). apply Ok_inj in H as <-.
  destruct (integrate_cells impl _ _ Hout)
    as (-> & -> & -> & -> & -> & -> & -> & -> & -> & -> & ->).
  rewrite H1, H2, H3, H4, H5. cbn [outcome].
  assert (∀ (r : Series) (a b : string) v,
            bool_decide (a = b) = false → <[a := v]> r !! b = r !! b) as Hother.
  { intros r a b v Hab. apply lookup_insert_ne. by apply bool_decide_eq_false in Hab. }
  destruct impl;
    repeat first [rewrite lookup_insert_eq
                 | rewrite Hother by (vm_compute; reflexivity)];
    split_and!; reflexivity.
Qed.

Lemma normalized_sample (impl : script) :
  normalize_of impl PyStr.ascii_lower Samples.one_record
  = Ok (SampleRecords.normalized impl).
Proof. apply outcome_Some. destruct impl; by_decision. Qed.

Lemma pipeline_record_witness :
  normalize_of DataAnalyst PyStr.ascii_lower Samples.one_record
  = Ok (SampleRecords.normalized DataAnalyst)
  ∧ integrate_of DataAnalyst (SampleRecords.normalized DataAnalyst)
    = Ok (SampleRecords.integrated DataAnalyst)
  ∧ SampleRecords.integrated DataAnalyst !! "zip"
    = outcome (zip_rule DataAnalyst Samples.one_record).
Proof.
  split_and!; [apply normalized_sample | apply integrated_sample |].
  by destruct (pipeline_record DataAnalyst PyStr.ascii_lower _ _ _
                 (normalized_sample DataAnalyst) (integrated_sample DataAnalyst))
    as (_ & _ & _ & _ & Hzip & _).
Defined.

(** The columns of a normalized row: the five that [normalize] assigns and
    those that were there. *)
Lemma normalize_columns (impl : script) (lower : string → string)
    (row n : Series) (label : string) :
  normalize_of impl lower row = Ok n →
  is_Some (n !! label)
  ↔ label ∈ ["BodyTypeText"; "BodyColorText"; "Condition"; "Variant"; "Zip"]
    ∨ is_Some (row !! label).
Proof.
  rewrite normalize_unfold. intros H.
  apply bind_Ok in H as (v1 & _ & H). apply bind_Ok in H as (v2 & _ & H).
  apply bind_Ok in H as (v3 & _ & H). apply bind_Ok in H as (v4 & _ & H).
  apply bind_Ok in H as (v5 & _ & H). apply Ok_inj in H as <-.
  rewrite <- !elem_of_dom, !dom_insert_L, !elem_of_union, !elem_of_singleton,
    !elem_of_cons, elem_of_nil.
  tauto.
Qed.

(** [integrate] reads twelve columns and returns when they are there. *)
Lemma integrate_reads (impl : script) (row out : Series) (label : string) :
  integrate_of impl row = Ok out →
  label ∈ ["City"; "FirstRegYear"; "FirstRegMonth"; "Km"; "ConsumptionTotalText";
           if impl is Solution then "ConditionTypeText" else "Condition"] →
  is_Some (row !! label).
Proof.
  intros H Hin.
  assert (∀ x, getitem row label = Ok x → is_Some (row !! label)) as Hget.
  { intros x Hx. apply getitem_Ok in Hx. by exists x. }
  destruct impl; cbn [integrate_of] in H;
    [unfold onedot_solution.integrate in H
    |unfold onedot_data_analyst_solution.integrate in H];
    apply bind_Ok in H as (x1 & H1 & H); apply bind_Ok in H as (x2 & H2 & H);
    apply bind_Ok in H as (x3 & H3 & H); apply bind_Ok in H as (x4 & H4 & H);
    apply bind_Ok in H as (x5 & H5 & H); apply bind_Ok in H as (x6 & H6 & H);
    apply bind_Ok in H as (x7 & H7 & H); apply bind_Ok in H as (x8 & H8 & H);
    apply bind_Ok in H as (x9 & H9 & H); apply bind_Ok in H as (x10 & H10 & H);
    apply bind_Ok in H as (x11 & H11 & H); apply bind_Ok in H as (x12 & H12 & _);
    repeat (apply elem_of_cons in Hin as [->|Hin]; [by eapply Hget |]);
    by apply elem_of_nil in Hin.
Qed.

Lemma integrate_returns (impl : script) (row : Series) :
  (∀ label,
     label ∈ ["BodyTypeText"; "BodyColorText";
              if impl is Solution then "ConditionTypeText" else "Condition";
              "City"; "MakeText"; "FirstRegYear"; "Km"; "ModelText";
              "Variant"; "Zip"; "FirstRegMonth"; "ConsumptionTotalText"] →
     is_Some (row !! label)) →
  ∃ out, integrate_of impl row = Ok out.
Proof.
  intros Hall.
  assert (∀ label,
            label ∈ ["BodyTypeText"; "BodyColorText";
                     if impl is Solution then "ConditionTypeText" else "Condition";
                     "City"; "MakeText"; "FirstRegYear"; "Km"; "ModelText";
                     "Variant"; "Zip"; "FirstRegMonth"; "ConsumptionTotalText"] →
            ∃ x, getitem row label = Ok x) as Hget.
  { intros label [x Hx]%Hall. exists x. by apply getitem_Ok. }
  destruct impl; cbn [integrate_of];
    [unfold onedot_solution.integrate | unfold onedot_data_analyst_solution.integrate];
    repeat match goal with
    | |- context [mbind _ (getitem row ?label)] =>
        let x := fresh "x" in let Hx := fresh "Hx" in
        destruct (Hget label) as [x Hx];
        [repeat first [by left | right] |];
        rewrite Hx; cbn [mbind result_bind]
    end;
    by eexists.
Qed.

Lemma integrate_raises (impl : script) (row : Series) e :
  integrate_of impl row = Raise e → e = KeyError.
Proof.
  destruct impl; cbn [integrate_of];
    [unfold onedot_solution.integrate | unfold onedot_data_analyst_solution.integrate];
    unfold getitem;
    repeat match goal with
    | |- context [mbind _ (match row !! ?label with _ => _ end)] =>
        destruct (row !! label); cbn [mbind result_bind]; [| by intros [= <-]]
    end;
    done.
Qed.

(** The constant columns are there in every aggregated record. *)
Lemma record_constant_columns impl df record column :
  record ∈ aggregate impl df →
  column ∈ onedot_solution.CONSTANT_COLUMNS →
  is_Some (record !! column).
Proof.
  intros Hrec Hin.
  apply aggregate_record in Hrec as (g & Hg & ->).
  pose proof (record_of_group_constants impl g) as Hk.
  apply (carries_key_filled impl _ _
           (gset_to_gmap NaN
              (⋃ (dom <$> (record_of_group impl
                   <$> groupby_agg_list (dropna_of impl) (sort_values df))))))
    in Hk.
  destruct (agg_key g) as [[[[[i mk] tn] tf] mo] mt] eqn:Hkey.
  unfold onedot_solution.CONSTANT_COLUMNS in Hin.
  repeat (apply elem_of_cons in Hin as [->|Hin];
          [destruct impl;
           (eexists; apply Hk; unfold constant_cells; cbn;
            solve [repeat first [by left | right]]) |]).
  by apply elem_of_nil in Hin.
Qed.

(** The exceptions of [normalize] on an aggregated record. *)
Lemma record_normalize_raises impl lower df record e :
  record ∈ aggregate impl df →
  normalize_of impl lower record = Raise e →
  e = KeyError ∨ e = TypeError ∨ (impl = DataAnalyst ∧ e = AttributeError).
Proof.
  intros Hrec. rewrite normalize_unfold.
  destruct (tolerant_rules impl record) as ([v3 H3] & [v5 H5] & Hseats).
  destruct (cartype_rule impl record) as [v1|e1] eqn:H1; cbn [mbind result_bind].
  2:{ intros [= <-]. left. rewrite cartype_rule_unfold in H1. unfold getitem in H1.
      destruct (record !! "Seats") as [seats|] eqn:Es.
      - destruct Hseats as [v Hv]; [by eexists | discriminate].
      - cbn [mbind result_bind] in H1. congruence. }
  destruct (color_rule impl record) as [v2|e2] eqn:H2; cbn [mbind result_bind].
  2:{ intros [= <-]. rewrite color_rule_eq in H2.
      destruct (record !! "BodyColorText") as [[| |text|n]|] eqn:Ec;
        try (rewrite normalize_color_no_text in H2 by (rewrite Ec; congruence);
             rewrite Ec in H2; injection H2 as <-; auto).
      destruct (proj2 (color_rule_Ok_iff impl record)) as [v Hv]; [by exists text |].
      rewrite color_rule_eq in Hv. congruence. }
  rewrite H3, H5. cbn [mbind result_bind].
  destruct (record_variant_cells impl df record Hrec)
    as ([m Hm] & [[mt Hmt]|[-> Hmt]] & [tn Htn]).
  - rewrite (variant_rule_texts impl lower record m mt) by done.
    destruct (String.eqb _ _); [done |].
    by rewrite (proj2 (getitem_Ok record "TypeName" tn) Htn).
  - cbn [variant_rule].
    unfold onedot_data_analyst_solution.norm_variant, getitem.
    rewrite Hm, Hmt. cbn [mbind result_bind py_strip]. intros [= <-]. auto.
Qed.

(** One aggregated record through both stages. *)
Lemma record_stages impl lower df record :
  record ∈ aggregate impl df →
  (∃ n out, normalize_of impl lower record = Ok n ∧ integrate_of impl n = Ok out)
  ↔ (∃ text, record !! "BodyColorText" = Some (Str text))
    ∧ (∃ text, record !! "ModelTypeText" = Some (Str text))
    ∧ ∀ column,
        column ∈ (["Seats"; "City"; "FirstRegYear"; "FirstRegMonth"; "Km";
                   "ConsumptionTotalText"]
                  ++ (if impl is Solution then ["ConditionTypeText"] else []))%list →
        is_Some (record !! column).
Proof.
  intros Hrec. split.
  - intros (n & out & Hn & Hout).
    pose proof Hn as H. rewrite normalize_unfold in H.
    apply bind_Ok in H as (v1 & H1 & H). apply bind_Ok in H as (v2 & H2 & H).
    apply bind_Ok in H as (v3 & H3 & H). apply bind_Ok in H as (v4 & H4 & _).
    split_and!.
    + apply (color_rule_Ok_iff impl). by exists v2.
    + destruct (record_variant_cells impl df record Hrec)
        as ([m Hm] & [Hmt|[-> Hmt]] & _); [done |].
      cbn [variant_rule] in H4.
      unfold onedot_data_analyst_solution.norm_variant, getitem in H4.
      by rewrite Hm, Hmt in H4.
    + intros column Hin. apply elem_of_cons in Hin as [->|Hin].
      { apply (cartype_rule_Ok_iff impl). by exists v1. }
      assert (column ∈ ["City"; "FirstRegYear"; "FirstRegMonth"; "Km";
                        "ConsumptionTotalText";
                        if impl is Solution then "ConditionTypeText" else "Condition"]
              ∧ column ∉ ["BodyTypeText"; "BodyColorText"; "Condition"; "Variant"; "Zip"])
        as [Hread Hnew].
      { destruct impl; cbn [app] in Hin;
          repeat (apply elem_of_cons in Hin as [->|Hin];
                  [split; by_decision |]);
          by apply elem_of_nil in Hin. }
      apply (integrate_reads impl n out column Hout) in Hread.
      apply (normalize_columns impl lower record n column Hn) in Hread as [?|?]; done.
  - intros ([text Hc] & [mt Hmt] & Hcols).
    assert (∃ n, normalize_of impl lower record = Ok n) as [n Hn].
    { rewrite normalize_unfold.
      destruct (proj2 (cartype_rule_Ok_iff impl record)) as [v1 H1].
      { apply Hcols. by left. }
      destruct (proj2 (color_rule_Ok_iff impl record)) as [v2 H2]; [by exists text |].
      destruct (tolerant_rules impl record) as ([v3 H3] & [v5 H5] & _).
      destruct (record_variant_cells impl df record Hrec) as ([m Hm] & _ & [tn Htn]).
      assert (∃ v4, variant_rule impl lower record = Ok v4) as [v4 H4].
      { rewrite (variant_rule_texts impl lower record m mt) by done.
        destruct (String.eqb _ _); [by eexists |]. exists tn. by apply getitem_Ok. }
      rewrite H1, H2, H3, H4, H5. by eexists. }
    exists n. destruct (integrate_returns impl n) as [out Hout]; [| by exists out].
    intros label Hin. apply (normalize_columns impl lower record n label Hn).
    destruct impl;
      repeat (apply elem_of_cons in Hin as [->|Hin];
              [first [left; by_decision
                     |right; apply (record_constant_columns _ df _ _ Hrec); by_decision
                     |right; apply Hcols; by_decision] |]);
      by apply elem_of_nil in Hin.
Qed.

(** Two [apply] calls in a row return when each row passes both functions. *)
Lemma apply_rows_twice {X Y Z} (f : X → result Y) (g : Y → result Z) l :
  (∃ zs, apply_rows f l ≫= apply_rows g = Ok zs)
  ↔ ∀ x, x ∈ l → ∃ y z, f x = Ok y ∧ g y = Ok z.
Proof.
  split.
  - intros (zs & H) x Hx. apply bind_Ok in H as (ys & Hys & Hzs).
    apply apply_rows_Ok in Hys, Hzs.
    apply list_elem_of_lookup in Hx as [i Hi].
    destruct (Forall2_lookup_l _ _ _ _ _ Hys Hi) as (y & Hy & Hfx).
    destruct (Forall2_lookup_l _ _ _ _ _ Hzs Hy) as (z & _ & Hgy).
    by exists y, z.
  - induction l as [|x l IH]; intros Hall; [by exists [] |].
    destruct (Hall x) as (y & z & Hy & Hz); [by left |].
    destruct IH as [zs H]; [intros x' Hx'; apply Hall; by right |].
    apply bind_Ok in H as (ys & Hys & Hzs).
    exists (z :: zs). cbn [apply_rows]. rewrite Hy, Hys. cbn [mbind result_bind apply_rows].
    by rewrite Hz, Hzs.
Qed.

(** X24.  Normalization and integration of an aggregated collection with at
    least one record.  The two [apply] calls return a collection exactly
    when every aggregated record has a text for its colour and for its
    model type and has the columns [Seats], [City], [FirstRegYear],
    [FirstRegMonth], [Km] and [ConsumptionTotalText], and in the first
    script also [ConditionTypeText]; the cells of those columns may hold
    anything, and a body type, and in the second script a condition text,
    need not be there at all.  The collection then has one record for each
    aggregated record.  Otherwise the exception is [KeyError] or
    [TypeError], or in the second script [AttributeError]. *)
Theorem stages_return_iff (impl : script) (lower : string → string)
    (df : list raw_row) :
  aggregate impl df ≠ [] →
  ((∃ outs, integrated_of impl lower df = Ok outs)
   ↔ ∀ record, record ∈ aggregate impl df →
       (∃ text, record !! "BodyColorText" = Some (Str text))
       ∧ (∃ text, record !! "ModelTypeText" = Some (Str text))
       ∧ ∀ column,
           column ∈ (["Seats"; "City"; "FirstRegYear"; "FirstRegMonth"; "Km";
                      "ConsumptionTotalText"]
                     ++ (if impl is Solution then ["ConditionTypeText"] else []))%list →
           is_Some (record !! column))
  ∧ (∀ outs, integrated_of impl lower df = Ok outs →
       length outs = length (aggregate impl df))
  ∧ (∀ e, integrated_of impl lower df = Raise e →
       e = KeyError ∨ e = TypeError ∨ (impl = DataAnalyst ∧ e = AttributeError)).
Proof.
  intros _. rewrite integrated_of_unfold, normalized_of_unfold. split_and!.
  - rewrite apply_rows_twice. split.
    + intros Hall record Hrec. apply (record_stages impl lower df record Hrec).
      by apply Hall.
    + intros Hall record Hrec. apply (record_stages impl lower df record Hrec).
      by apply Hall.
  - intros outs H. apply bind_Ok in H as (ns & Hns & Houts).
    apply apply_rows_Ok, Forall2_length in Hns, Houts. congruence.
  - intros e H.
    destruct (apply_rows (normalize_of impl lower) (aggregate impl df))
      as [ns|e'] eqn:Hns; cbn [mbind result_bind] in H.
    + apply apply_rows_Raise in H as (n & _ & He).
      left. by apply (integrate_raises impl n).
    + injection H as ->. apply apply_rows_Raise in Hns as (record & Hrec & He).
      by apply (record_normalize_raises impl lower df record).
Qed.

Lemma stages_return_iff_witness :
  aggregate Solution Samples.one_vehicle ≠ []
  ∧ ∃ outs, integrated_of Solution PyStr.ascii_lower Samples.one_vehicle = Ok outs.
Proof.
  assert (aggregate Solution Samples.one_vehicle ≠ []) as Hne by by_decision.
  split; [done |].
  apply (stages_return_iff Solution PyStr.ascii_lower Samples.one_vehicle Hne).
  intros record Hrec.
  assert (record = Samples.one_record) as ->.
  { revert Hrec.
    assert (aggregate Solution Samples.one_vehicle = [Samples.one_record]) as ->
      by by_decision.
    by intros ->%list_elem_of_singleton. }
  split_and!;
    [exists "schwarz metallic"; by_decision | exists "A4 Avant"; by_decision |].
  intros column Hin. cbn [app] in Hin.
  repeat (apply elem_of_cons in Hin as [->|Hin]; [by_decision |]).
  by apply elem_of_nil in Hin.
Defined.

End PipelineProperties.
